(** * Cafeteria Management API: a shallow embedding of [main.py] and [schemas.py]

    The request handlers of [main.py] are embedded as functions in a small
    state-and-exception monad over the document store.  Python's [float] is the
    kernel's binary64 type, [int] is [Z], [str] is the [string] of its UTF-8
    bytes (so [len] counts the bytes that start a character), [bytes] is the
    [string] of the bytes themselves, and a [bson.ObjectId] is the bytes it
    holds.

    A collection holds documents of the schema that [schemas.py] gives it,
    which is what the handlers write; a handler is followed up to the value
    it returns or the exception it raises, and the framework up to the status
    code it derives from either, the refusal to write a nan or an infinite
    float as JSON included. *)

From Stdlib Require Import ZArith NArith List String Ascii Bool Lia.
From Stdlib Require Import PrimFloat FloatOps SpecFloat FloatAxioms.
From stdpp Require Import base option list strings gmap.

Set Warnings "-inexact-float".
Local Open Scope Z_scope.

(** ** Python numbers *)

Module Py.

(** Nearest integer to [a / b] for [0 < b], ties going to the even one. *)
Definition div_half_even (a b : Z) : Z :=
  let q := a / b in
  match 2 * (a mod b) ?= b with
  | Lt => q
  | Gt => q + 1
  | Eq => if Z.even q then q else q + 1
  end.

(** The builtin [round(x, ndigits)] on a float, for [0 <= ndigits]: the
    exact binary value of [x] is rounded half-to-even to [ndigits] decimals
    and the decimal so obtained is converted back to the nearest float.
    Zeros, infinities and nans round to themselves. *)
Definition round (x : float) (ndigits : nat) : float :=
  match Prim2SF x with
  | S754_finite s m e =>
      let scale := 10 ^ Z.of_nat ndigits in
      let n := if 0 <=? e then scale * Zpos m * 2 ^ e
               else div_half_even (scale * Zpos m) (2 ^ (- e)) in
      match n, scale with
      | Zpos p, Zpos d =>
          SF2Prim (SFdiv prec emax (S754_finite s p 0) (S754_finite false d 0))
      | _, _ => if s then neg_zero else zero
      end
  | _ => x
  end.

(** Conversion of an [int] operand in [float * int]: correctly rounded, and
    [OverflowError] ([None]) when the integer is too large for a float. *)
Definition float_of_int (z : Z) : option float :=
  match binary_normalize prec emax z 0 false with
  | S754_infinity _ => None
  | f => Some (SF2Prim f)
  end.

(** A byte that continues a character of a [str] (10xxxxxx in UTF-8). *)
Definition continues (c : ascii) : bool :=
  let n := N_of_ascii c in (128 <=? n)%N && (n <? 192)%N.

(** [len(s)] on a [str]: the number of characters. *)
Fixpoint len (s : string) : nat :=
  match s with
  | EmptyString => O
  | String c s' => if continues c then len s' else S (len s')
  end.

(** [s[:n]] on a [str]: the first [n] characters. *)
Fixpoint take (n : nat) (s : string) : string :=
  match s with
  | EmptyString => EmptyString
  | String c s' =>
      if continues c then String c (take n s')
      else match n with
           | O => EmptyString
           | S n' => String c (take n' s')
           end
  end.

(** [math.isfinite(x)]: neither a nan nor an infinity. *)
Definition isfinite (x : float) : bool :=
  negb (is_nan x) && negb (is_infinity x).

(** [Py_ISSPACE]: the ASCII whitespace [bytes.fromhex] skips. *)
Definition isspace (c : ascii) : bool :=
  let n := N_of_ascii c in ((9 <=? n) && (n <=? 13) || (n =? 32))%N.

(** One hexadecimal digit, as [binascii.hexlify] writes it. *)
Definition hex_digit (d : N) : ascii :=
  match d with
  | 0 => "0" | 1 => "1" | 2 => "2" | 3 => "3" | 4 => "4" | 5 => "5"
  | 6 => "6" | 7 => "7" | 8 => "8" | 9 => "9" | 10 => "a" | 11 => "b"
  | 12 => "c" | 13 => "d" | 14 => "e" | _ => "f"
  end%N%char.

(** The value of a hexadecimal digit of either case. *)
Definition hex_value (c : ascii) : option N :=
  let n := N_of_ascii c in
  (if (48 <=? n) && (n <=? 57) then Some (n - 48)
   else if (97 <=? n) && (n <=? 102) then Some (n - 87)
   else if (65 <=? n) && (n <=? 70) then Some (n - 55)
   else None)%N.

(** [binascii.hexlify(b).decode()]: two lowercase digits per byte. *)
Fixpoint hexlify (b : string) : string :=
  match b with
  | EmptyString => EmptyString
  | String c b' =>
      String (hex_digit (N_of_ascii c / 16))
        (String (hex_digit (N_of_ascii c mod 16)) (hexlify b'))
  end.

(** [bytes.fromhex(s)]: whitespace is skipped where a byte may start, then
    two hexadecimal digits make a byte; anything else is a [ValueError]
    ([None]). *)
Fixpoint fromhex (s : string) : option string :=
  match s with
  | EmptyString => Some EmptyString
  | String c s' =>
      if isspace c then fromhex s'
      else
        match hex_value c, s' with
        | Some top, String c' s'' =>
            match hex_value c', fromhex s'' with
            | Some bot, Some b => Some (String (ascii_of_N (top * 16 + bot)) b)
            | _, _ => None
            end
        | _, _ => None
        end
  end.

End Py.

(** ** Store identifiers *)

(** A [bson.ObjectId] is the bytes it holds: twelve when the store assigns
    it, possibly fewer when it is read from a string with whitespace. *)
Definition ObjectId := string.

(** [str(ObjectId)] *)
Definition str (o : ObjectId) : string := Py.hexlify o.

(** [ObjectId(id_str)]: a string of 24 characters is handed to
    [bytes.fromhex]; [None] stands for [bson.errors.InvalidId]. *)
Definition ObjectId_of (id_str : string) : option ObjectId :=
  if Nat.eqb (Py.len id_str) 24 then Py.fromhex id_str else None.

(** Identifiers of twelve bytes. *)
Definition valid_id (o : ObjectId) : Prop := String.length o = 12%nat.

(** The bytes of an identifier read as a number, first byte first, and the
    twelve bytes of the identifier a number spells. *)
Fixpoint bytes_value (b : string) (acc : N) : N :=
  match b with
  | EmptyString => acc
  | String c b' => bytes_value b' (acc * 256 + N_of_ascii c)
  end.

Fixpoint bytes_of (k : nat) (n : N) (acc : string) : string :=
  match k with
  | O => acc
  | S k' => bytes_of k' (n / 256) (String (ascii_of_N (n mod 256)) acc)
  end.

Definition ObjectId_value (o : ObjectId) : N := bytes_value o 0.
Definition ObjectId_numbered (n : N) : ObjectId := bytes_of 12 n EmptyString.

(** ** Exceptions *)

Inductive Exception :=
| HTTPException (status_code : Z) (detail : string)
| ValidationError (model field : string)   (* pydantic, from a schema constructor *)
| OverflowError                            (* int too large to convert to float *)
| TypeError                                (* subscripting [db] when it is [None] *)
| StoreError (message : string).           (* raised by the store driver *)

Definition Result (A : Type) : Type := Exception + A.

(** [str(e)]; for a [ValidationError], which no handler prints, the heading
    line of its message. *)
Definition Exception_str (e : Exception) : string :=
  match e with
  | HTTPException c d => d
  | ValidationError m f => "1 validation error for " +:+ m
  | OverflowError => "int too large to convert to float"
  | TypeError => "'NoneType' object is not subscriptable"
  | StoreError m => m
  end.

(** ** Schemas ([schemas.py]) *)

Module Staff.
Record t := mk
  { name : string; role : string; pin : string; is_active : bool }.

(** [Staff(name=.., role=.., pin=..)]: [pin] has [min_length=4],
    [max_length=8]; [is_active] defaults to [True]. *)
Definition new (name role pin : string) : Result t :=
  if (4 <=? Py.len pin)%nat && (Py.len pin <=? 8)%nat
  then inr (mk name role pin true)
  else inl (ValidationError "Staff" "pin").
End Staff.

Module Menuitem.
Record t := mk
  { title : string; description : option string; price : float;
    category : option string; available : bool }.

(** [Menuitem(..)]: [price] has [ge=0]. *)
Definition new (title : string) (description : option string) (price : float)
    (category : option string) (available : bool) : Result t :=
  if (0 <=? price)%float
  then inr (mk title description price category available)
  else inl (ValidationError "Menuitem" "price").
End Menuitem.

(** One entry of [item_lines]: the dict
    [{"menu_item_id", "quantity", "price", "title"}]. *)
Module ItemLine.
Record t := mk
  { menu_item_id : string; quantity : Z; price : float; title : string }.
End ItemLine.

Module Order.
Record t := mk
  { staff_id : option string; items : list ItemLine.t;
    subtotal : float; tax : float; total : float;
    status : string; note : option string }.

(** [Order(..)]: [subtotal], [tax] and [total] have [ge=0]. *)
Definition new (staff_id : option string) (items : list ItemLine.t)
    (subtotal tax total : float) (status : string) (note : option string)
    : Result t :=
  if negb (0 <=? subtotal)%float then inl (ValidationError "Order" "subtotal")
  else if negb (0 <=? tax)%float then inl (ValidationError "Order" "tax")
  else if negb (0 <=? total)%float then inl (ValidationError "Order" "total")
  else inr (mk staff_id items subtotal tax total status note).
End Order.

Module Inventory.
Record t := mk
  { sku : string; quantity : float; unit : string;
    reorder_level : option float }.

(** [Inventory(..)]: no constraint beyond the field types. *)
Definition new (sku : string) (quantity : float) (unit : string)
    (reorder_level : option float) : Result t :=
  inr (mk sku quantity unit reorder_level).
End Inventory.

(** ** The document store *)

(** A stored document: the identifier the store assigned and the fields of
    its schema.  [Id] is [ObjectId] in the store and [string] once a listing
    has rendered it. *)
Record Document (Id T : Type) := Doc { _id : Id; fields : T }.
Arguments Doc {Id T} _ _.
Arguments _id {Id T} _.
Arguments fields {Id T} _.

Record Store := mkStore
  { staff : list (Document ObjectId Staff.t);
    menuitem : list (Document ObjectId Menuitem.t);
    order : list (Document ObjectId Order.t);
    inventory : list (Document ObjectId Inventory.t);
    next_id : N }.

(** The global [db] of [database.py]: [None] when no store is configured,
    otherwise a handle with the database name; the server behind the handle
    is either down, every operation then raising, or up with its contents. *)
Inductive Server := Down (error : string) | Up (s : Store).
Record Database := mkDatabase { name : string; server : Server }.
Definition Db : Type := option Database.

(** A collection [db[coll_name]] of documents of schema [T]. *)
Record Collection (T : Type) := mkCollection
  { coll_name : string;
    docs : Store -> list (Document ObjectId T);
    with_docs : list (Document ObjectId T) -> Store -> Store }.
Arguments coll_name {T} _.
Arguments docs {T} _ _.
Arguments with_docs {T} _ _ _.

Definition staff_c : Collection Staff.t :=
  mkCollection _ "staff" staff
    (fun l s => mkStore l (menuitem s) (order s) (inventory s) (next_id s)).
Definition menuitem_c : Collection Menuitem.t :=
  mkCollection _ "menuitem" menuitem
    (fun l s => mkStore (staff s) l (order s) (inventory s) (next_id s)).
Definition order_c : Collection Order.t :=
  mkCollection _ "order" order
    (fun l s => mkStore (staff s) (menuitem s) l (inventory s) (next_id s)).
Definition inventory_c : Collection Inventory.t :=
  mkCollection _ "inventory" inventory
    (fun l s => mkStore (staff s) (menuitem s) (order s) l (next_id s)).

Definition with_next_id (n : N) (s : Store) : Store :=
  mkStore (staff s) (menuitem s) (order s) (inventory s) n.

(** The identifier the store assigns next. *)
Definition fresh_id (s : Store) : ObjectId := ObjectId_numbered (next_id s).

(** ** Handlers run in a monad of state [db] and exceptions *)

Definition M (A : Type) : Type := Db -> Db * Result A.

Definition ret {A} (a : A) : M A := fun db => (db, inr a).
Definition raise {A} (e : Exception) : M A := fun db => (db, inl e).
Definition bind {A B} (m : M A) (k : A -> M B) : M B :=
  fun db => match m db with
            | (db', inr a) => k a db'
            | (db', inl e) => (db', inl e)
            end.
Definition lift {A} (r : Result A) : M A := fun db => (db, r).

#[global] Instance M_ret : MRet M := @ret.
#[global] Instance M_bind : MBind M := fun A B k m => bind m k.

(** An operation of the driver on the store behind [db]. *)
Definition on_store {A} (f : Store -> Result (Store * A)) : M A :=
  fun db =>
    match db with
    | None => (db, inl TypeError)
    | Some (mkDatabase n (Down e)) => (db, inl (StoreError e))
    | Some (mkDatabase n (Up s)) =>
        match f s with
        | inl e => (db, inl e)
        | inr (s', a) => (Some (mkDatabase n (Up s')), inr a)
        end
    end.

(** [db[c].find(q)]: the documents matching [q], in store order. *)
Definition find {T} (c : Collection T) (q : Document ObjectId T -> bool)
    : M (list (Document ObjectId T)) :=
  on_store (fun s => inr (s, List.filter q (docs c s))).

(** [db[c].find_one(q)]: the first document matching [q], or [None]. *)
Definition find_one {T} (c : Collection T) (q : Document ObjectId T -> bool)
    : M (option (Document ObjectId T)) :=
  on_store (fun s => inr (s, List.find q (docs c s))).

Fixpoint update_first {T} (q : Document ObjectId T -> bool) (set : T -> T)
    (l : list (Document ObjectId T)) : list (Document ObjectId T) :=
  match l with
  | [] => []
  | d :: l' => if q d then Doc (_id d) (set (fields d)) :: l'
               else d :: update_first q set l'
  end.

(** [db[c].update_one(q, {"$set": ..})]: the first document matching [q]
    has its fields overwritten by [set]. *)
Definition update_one {T} (c : Collection T) (q : Document ObjectId T -> bool)
    (set : T -> T) : M () :=
  on_store (fun s => inr (with_docs c (update_first q set (docs c s)) s, tt)).

(** [db.list_collection_names()]: a collection exists once it holds a
    document. *)
Definition list_collection_names : M (list string) :=
  on_store (fun s =>
    inr (s, (if staff s is [] then [] else ["staff"]) ++
            (if menuitem s is [] then [] else ["menuitem"]) ++
            (if order s is [] then [] else ["order"]) ++
            (if inventory s is [] then [] else ["inventory"]))).

(** Modelled from the spec: [create_document] of [database.py], which is not
    among the sources.  The record is persisted at the end of its collection
    under an identifier the store assigns, unique among all it has assigned,
    and that identifier is returned in string form.  The store draws the
    identifiers from a counter and raises once the 96 bits are used up. *)
Definition create_document {T} (c : Collection T) (data : T) : M string :=
  on_store (fun s =>
    if (next_id s <? 2 ^ 96)%N
    then inr (with_next_id (next_id s + 1)
                (with_docs c (docs c s ++ [Doc (fresh_id s) data]) s),
              str (fresh_id s))
    else inl (StoreError "no identifier left")).

(** Modelled from the spec: [get_documents] of [database.py], which is not
    among the sources.  It returns the full collection, in store order. *)
Definition get_documents {T} (c : Collection T)
    : M (list (Document ObjectId T)) :=
  find c (fun _ => true).

(** ** Request models and reply bodies ([main.py]) *)

Module MenuCreate.
Record t := mk
  { title : string; description : option string; price : float;
    category : option string; available : bool }.
End MenuCreate.

Module OrderItem.
Record t := mk { menu_item_id : string; quantity : Z }.
End OrderItem.

Module OrderCreate.
Record t := mk
  { staff_id : option string; items : list OrderItem.t;
    note : option string }.
End OrderCreate.

Module InventoryUpsert.
Record t := mk
  { sku : string; quantity : float; unit : string;
    reorder_level : option float }.
End InventoryUpsert.

Module StaffCreate.
Record t := mk { name : string; role : string; pin : string }.
End StaffCreate.

Module StaffLogin.
Record t := mk { pin : string }.
End StaffLogin.

(** [{"id": ..}] *)
Module Created.
Record t := mk { id : string }.
End Created.

(** [{"id": .., "subtotal": .., "tax": .., "total": ..}] *)
Module OrderCreated.
Record t := mk { id : string; subtotal : float; tax : float; total : float }.
End OrderCreated.

(** [{"id": .., "name": .., "role": ..}] *)
Module LoggedIn.
Record t := mk { id : string; name : string; role : string }.
End LoggedIn.

(** The dict [test_database] fills in. *)
Module Status.
Record t := mk
  { backend : string; database : string; database_url : option string;
    database_name : option string; connection_status : string;
    collections : list string }.

Definition set_database (v : string) (st : t) : t :=
  mk (backend st) v (database_url st) (database_name st)
     (connection_status st) (collections st).
Definition set_database_url (v : option string) (st : t) : t :=
  mk (backend st) (database st) v (database_name st)
     (connection_status st) (collections st).
Definition set_database_name (v : option string) (st : t) : t :=
  mk (backend st) (database st) (database_url st) v
     (connection_status st) (collections st).
Definition set_connection_status (v : string) (st : t) : t :=
  mk (backend st) (database st) (database_url st) (database_name st)
     v (collections st).
Definition set_collections (v : list string) (st : t) : t :=
  mk (backend st) (database st) (database_url st) (database_name st)
     (connection_status st) v.
End Status.

(** ** The framework around a handler *)

(** A reply body is written with [json.dumps(.., allow_nan=False)], which
    raises on a nan or an infinite float anywhere in the body. *)
Class Jsonable (A : Type) := json_ok : A -> bool.

#[global] Instance string_json : Jsonable string := fun _ => true.
#[global] Instance Created_json : Jsonable Created.t := fun _ => true.
#[global] Instance LoggedIn_json : Jsonable LoggedIn.t := fun _ => true.
#[global] Instance Status_json : Jsonable Status.t := fun _ => true.
#[global] Instance Staff_json : Jsonable Staff.t := fun _ => true.
#[global] Instance OrderCreated_json : Jsonable OrderCreated.t :=
  fun b => Py.isfinite (OrderCreated.subtotal b)
           && Py.isfinite (OrderCreated.tax b)
           && Py.isfinite (OrderCreated.total b).
#[global] Instance Menuitem_json : Jsonable Menuitem.t :=
  fun m => Py.isfinite (Menuitem.price m).
#[global] Instance ItemLine_json : Jsonable ItemLine.t :=
  fun l => Py.isfinite (ItemLine.price l).
#[global] Instance Order_json : Jsonable Order.t :=
  fun o => forallb json_ok (Order.items o)
           && Py.isfinite (Order.subtotal o) && Py.isfinite (Order.tax o)
           && Py.isfinite (Order.total o).
#[global] Instance Inventory_json : Jsonable Inventory.t :=
  fun i => Py.isfinite (Inventory.quantity i)
           && match Inventory.reorder_level i with
              | Some r => Py.isfinite r
              | None => true
              end.
#[global] Instance Document_json {Id T} `{Jsonable T}
  : Jsonable (Document Id T) := fun d => json_ok (fields d).
#[global] Instance list_json {A} `{Jsonable A} : Jsonable (list A) :=
  forallb json_ok.

(** What the client receives: the handler's value under the route's status
    code when it can be written as JSON, and a plain 500 when it cannot; an
    [HTTPException] under its own code with its detail; any other exception
    escaping the handler as a plain 500.  What the handler did to the store
    stays done in every case. *)
Inductive Response (A : Type) :=
| JSONResponse (status_code : Z) (content : A)
| ErrorResponse (status_code : Z) (detail : string).
Arguments JSONResponse {A} _ _.
Arguments ErrorResponse {A} _ _.

Definition status_code_of {A} (r : Response A) : Z :=
  match r with
  | JSONResponse c _ => c
  | ErrorResponse c _ => c
  end.

Definition route {A} `{Jsonable A} (status_code : Z) (handler : M A)
    : Db -> Db * Response A :=
  fun db =>
    match handler db with
    | (db', inr v) =>
        if json_ok v then (db', JSONResponse status_code v)
        else (db', ErrorResponse 500 "Internal Server Error")
    | (db', inl (HTTPException c d)) => (db', ErrorResponse c d)
    | (db', inl _) => (db', ErrorResponse 500 "Internal Server Error")
    end.

(** ** Handlers ([main.py]) *)

Definition oid (id_str : string) : Result ObjectId :=
  match ObjectId_of id_str with
  | Some o => inr o
  | None => inl (HTTPException 400 "Invalid id")
  end.

Definition read_root : M string :=
  mret "Cafeteria Management Backend Running".

(** Truth value of [os.getenv(..)]: set and not empty. *)
Definition truthy (v : option string) : bool :=
  match v with
  | Some (String _ _) => true
  | _ => false
  end.

(** The body of the outer [try] of [test_database]: the dict as the body
    leaves it and the exception escaping the body, if any. *)
Definition test_database_try (DATABASE_URL : option string) (db : Db)
    (status : Status.t) : Status.t * option Exception :=
  match db with
  | Some h =>
      let status := Status.set_database "✅ Available" status in
      let status :=
        Status.set_database_url
          (Some (if truthy DATABASE_URL then "✅ Set" else "❌ Not Set")) status in
      let status :=
        Status.set_database_name
          (Some (if name h is EmptyString then "✅ Connected" else name h))
          status in
      let status := Status.set_connection_status "Connected" status in
      match list_collection_names db with
      | (_, inr names) =>
          let status := Status.set_collections names status in
          (Status.set_database "✅ Connected & Working" status, None)
      | (_, inl e) =>
          (Status.set_database
             ("⚠️ Connected but Error: " +:+ Py.take 80 (Exception_str e))
             status, None)
      end
  | None => (Status.set_database "⚠️ Available but not initialized" status, None)
  end.

Definition test_database (DATABASE_URL : option string) : M Status.t :=
  fun db =>
    let status :=
      Status.mk "✅ Running" "❌ Not Available" None None "Not Connected" [] in
    match test_database_try DATABASE_URL db status with
    | (status, Some e) =>
        (db, inr (Status.set_database
                    ("❌ Error: " +:+ Py.take 80 (Exception_str e)) status))
    | (status, None) => (db, inr status)
    end.

(** [d["_id"] = str(d["_id"])] on every document. *)
Definition render {T} (l : list (Document ObjectId T))
    : list (Document string T) :=
  List.map (fun d => Doc (str (_id d)) (fields d)) l.

Definition list_menu : M (list (Document string Menuitem.t)) :=
  docs ← get_documents menuitem_c;
  mret (render docs).

Definition create_menu_item (payload : MenuCreate.t) : M Created.t :=
  item ← lift (Menuitem.new (MenuCreate.title payload)
                 (MenuCreate.description payload) (MenuCreate.price payload)
                 (MenuCreate.category payload) (MenuCreate.available payload));
  new_id ← create_document menuitem_c item;
  mret (Created.mk new_id).

(** [[oid(i.menu_item_id) for i in payload.items]] *)
Fixpoint oids (items : list OrderItem.t) : Result (list ObjectId) :=
  match items with
  | [] => inr []
  | i :: rest =>
      match oid (OrderItem.menu_item_id i) with
      | inl e => inl e
      | inr o =>
          match oids rest with
          | inl e => inl e
          | inr os => inr (o :: os)
          end
      end
  end.

(** [{str(d["_id"]): d for d in ..}]: a later document replaces an earlier
    one under the same key. *)
Definition menu_map_of (found : list (Document ObjectId Menuitem.t))
    : gmap string (Document ObjectId Menuitem.t) :=
  foldl (fun m d => <[str (_id d) := d]> m) ∅ found.

(** The [for it in payload.items] loop, entered with the [subtotal] and
    [item_lines] accumulated so far. *)
Fixpoint price_items (menu_map : gmap string (Document ObjectId Menuitem.t))
    (items : list OrderItem.t) (subtotal : float) (item_lines : list ItemLine.t)
    : Result (float * list ItemLine.t) :=
  match items with
  | [] => inr (subtotal, item_lines)
  | it :: rest =>
      match menu_map !! OrderItem.menu_item_id it with
      | None =>
          inl (HTTPException 400
                 ("Menu item not found: " +:+ OrderItem.menu_item_id it))
      | Some m =>
          match Py.float_of_int (OrderItem.quantity it) with
          | None => inl OverflowError
          | Some q =>
              let line_total := (Menuitem.price (fields m) * q)%float in
              price_items menu_map rest (subtotal + line_total)%float
                (item_lines ++
                   [ItemLine.mk (OrderItem.menu_item_id it) (OrderItem.quantity it)
                      (Menuitem.price (fields m)) (Menuitem.title (fields m))])
          end
      end
  end.

Definition create_order (payload : OrderCreate.t) : M OrderCreated.t :=
  ids ← lift (oids (OrderCreate.items payload));
  found ← find menuitem_c (fun d => bool_decide (_id d ∈ ids));
  let menu_map := menu_map_of found in
  priced ← lift (price_items menu_map (OrderCreate.items payload) 0%float []);
  let subtotal := fst priced in
  let item_lines := snd priced in
  let tax := Py.round (subtotal * 0.07)%float 2 in
  let total := Py.round (subtotal + tax)%float 2 in
  order_doc ← lift (Order.new (OrderCreate.staff_id payload) item_lines
                      (Py.round subtotal 2) tax total "open"
                      (OrderCreate.note payload));
  new_id ← create_document order_c order_doc;
  mret (OrderCreated.mk new_id (Order.subtotal order_doc) (Order.tax order_doc)
          (Order.total order_doc)).

Definition list_orders : M (list (Document string Order.t)) :=
  docs ← get_documents order_c;
  mret (render docs).

Definition list_inventory : M (list (Document string Inventory.t)) :=
  docs ← get_documents inventory_c;
  mret (render docs).

Definition upsert_inventory (item : InventoryUpsert.t) : M Created.t :=
  existing ← find_one inventory_c
    (fun d => String.eqb (Inventory.sku (fields d)) (InventoryUpsert.sku item));
  match existing with
  | Some e =>
      _ ← update_one inventory_c (fun d => String.eqb (_id d) (_id e))
            (fun f => Inventory.mk (Inventory.sku f)
                        (InventoryUpsert.quantity item)
                        (InventoryUpsert.unit item)
                        (InventoryUpsert.reorder_level item));
      mret (Created.mk (str (_id e)))
  | None =>
      doc ← lift (Inventory.new (InventoryUpsert.sku item)
                    (InventoryUpsert.quantity item) (InventoryUpsert.unit item)
                    (InventoryUpsert.reorder_level item));
      new_id ← create_document inventory_c doc;
      mret (Created.mk new_id)
  end.

Definition create_staff (s : StaffCreate.t) : M Created.t :=
  staff_doc ← lift (Staff.new (StaffCreate.name s) (StaffCreate.role s)
                      (StaffCreate.pin s));
  new_id ← create_document staff_c staff_doc;
  mret (Created.mk new_id).

Definition login (staff : StaffLogin.t) : M LoggedIn.t :=
  doc ← find_one staff_c
    (fun d => String.eqb (Staff.pin (fields d)) (StaffLogin.pin staff)
              && Bool.eqb (Staff.is_active (fields d)) true);
  match doc with
  | None => raise (HTTPException 401 "Invalid PIN")
  | Some d =>
      mret (LoggedIn.mk (str (_id d)) (Staff.name (fields d))
              (Staff.role (fields d)))
  end.

(** ** Routes *)

Definition GET_root := route 200 read_root.
Definition GET_test (DATABASE_URL : option string) :=
  route 200 (test_database DATABASE_URL).
Definition GET_api_menu := route 200 list_menu.
Definition POST_api_menu (payload : MenuCreate.t) :=
  route 201 (create_menu_item payload).
Definition POST_api_orders (payload : OrderCreate.t) :=
  route 201 (create_order payload).
Definition GET_api_orders := route 200 list_orders.
Definition GET_api_inventory := route 200 list_inventory.
Definition POST_api_inventory (item : InventoryUpsert.t) :=
  route 201 (upsert_inventory item).
Definition POST_api_staff (s : StaffCreate.t) := route 201 (create_staff s).
Definition POST_api_auth_login (staff : StaffLogin.t) := route 200 (login staff).

(** ** Well-formed stores and vocabulary of the statements *)

(** An identifier of twelve bytes drawn from the counter below [n]. *)
Definition drawn (n : N) (o : ObjectId) : Prop :=
  valid_id o /\ (ObjectId_value o < n)%N.

(** In a collection of a well-formed store no identifier occurs twice and
    every identifier has twelve bytes and was drawn from the counter. *)
Definition ids_ok {T} (n : N) (l : list (Document ObjectId T)) : bool :=
  forallb (fun d => Nat.eqb (String.length (_id d)) 12
                    && (ObjectId_value (_id d) <? n)%N) l
  && bool_decide (NoDup (List.map _id l)).

(** The invariant every operation keeps. *)
Definition store_inv (s : Store) : bool :=
  ids_ok (next_id s) (staff s) && ids_ok (next_id s) (menuitem s)
  && ids_ok (next_id s) (order s) && ids_ok (next_id s) (inventory s)
  && (next_id s <=? 2 ^ 96)%N.

(** A well-formed store that can still assign an identifier. *)
Definition wf_store (s : Store) : bool :=
  store_inv s && (next_id s <? 2 ^ 96)%N.

(** [db] when the store is configured and up. *)
Definition live (n : string) (s : Store) : Db := Some (mkDatabase n (Up s)).

(** The store after [create_document(c, data)]. *)
Definition inserted {T} (c : Collection T) (data : T) (s : Store) : Store :=
  with_next_id (next_id s + 1)
    (with_docs c (docs c s ++ [Doc (fresh_id s) data]) s).

(** [0.0 + p1*q1 + .. + pn*qn], added from the left in floating point. *)
Definition accumulate (start : float) (prices quantities : list float) : float :=
  fold_left (fun acc pq => acc + fst pq * snd pq)%float
    (combine prices quantities) start.

(** The entries [item_lines] gets for requested items and the documents
    they refer to. *)
Definition lines_of (items : list OrderItem.t)
    (ds : list (Document ObjectId Menuitem.t)) : list ItemLine.t :=
  List.map (fun x =>
      ItemLine.mk (OrderItem.menu_item_id (fst x)) (OrderItem.quantity (fst x))
        (Menuitem.price (fields (snd x))) (Menuitem.title (fields (snd x))))
    (combine items ds).

(** A requested identifier is listed when it is the string form of the
    identifier of a stored menu item. *)
Definition listed (s : Store) (it : OrderItem.t) : bool :=
  existsb (fun d => String.eqb (str (_id d)) (OrderItem.menu_item_id it))
    (menuitem s).

(** The requested items in front of the first one that is not listed. *)
Fixpoint listed_prefix (s : Store) (items : list OrderItem.t)
    : list OrderItem.t :=
  match items with
  | [] => []
  | it :: rest => if listed s it then it :: listed_prefix s rest else []
  end.

(** A run of inventory upserts, replies dropped. *)
Definition upserts (items : list InventoryUpsert.t) (db : Db) : Db :=
  fold_left (fun db item => fst (POST_api_inventory item db)) items db.

Definition has_sku (k : string) (d : Document ObjectId Inventory.t) : bool :=
  String.eqb (Inventory.sku (fields d)) k.

(** The three [ge=0] checks of [Order]. *)
Definition Order_ok (subtotal tax total : float) : bool :=
  (0 <=? subtotal)%float && (0 <=? tax)%float && (0 <=? total)%float.

(** The three amounts can be written as JSON. *)
Definition amounts_finite (subtotal tax total : float) : bool :=
  Py.isfinite subtotal && Py.isfinite tax && Py.isfinite total.

(** The stored menu can be written as JSON: every price is finite. *)
Definition prices_finite (s : Store) : bool :=
  forallb (fun d => Py.isfinite (Menuitem.price (fields d))) (menuitem s).

(** A requested item refers to the stored menu item [d]. *)
Definition refers (s : Store) (it : OrderItem.t)
    (d : Document ObjectId Menuitem.t) : Prop :=
  In d (menuitem s) /\ OrderItem.menu_item_id it = str (_id d).

(** The quantity of a requested item converts to the float [q]. *)
Definition converts (it : OrderItem.t) (q : float) : Prop :=
  Py.float_of_int (OrderItem.quantity it) = Some q.

(** Any request to the API, and the store after it. *)
Inductive Request :=
| Get_root
| Get_test (DATABASE_URL : option string)
| Get_api_menu
| Post_api_menu (payload : MenuCreate.t)
| Post_api_orders (payload : OrderCreate.t)
| Get_api_orders
| Get_api_inventory
| Post_api_inventory (item : InventoryUpsert.t)
| Post_api_staff (s : StaffCreate.t)
| Post_api_auth_login (staff : StaffLogin.t).

Definition db_after (r : Request) (db : Db) : Db :=
  match r with
  | Get_root => fst (GET_root db)
  | Get_test url => fst (GET_test url db)
  | Get_api_menu => fst (GET_api_menu db)
  | Post_api_menu p => fst (POST_api_menu p db)
  | Post_api_orders p => fst (POST_api_orders p db)
  | Get_api_orders => fst (GET_api_orders db)
  | Get_api_inventory => fst (GET_api_inventory db)
  | Post_api_inventory i => fst (POST_api_inventory i db)
  | Post_api_staff st => fst (POST_api_staff st db)
  | Post_api_auth_login l => fst (POST_api_auth_login l db)
  end.

Definition empty_store : Store := mkStore [] [] [] [] 0.

(** There is an identifier left to assign. *)
Definition room (s : Store) : Prop := (next_id s <? 2 ^ 96)%N = true.

(** What a request can do to a live store: nothing; or one insert of a
    record its schema accepted; or, for the inventory, one update in place of
    the first record with the sku. *)
Inductive api_step (s : Store) : Store -> Prop :=
| step_none : api_step s s
| step_staff name role pin :
    (4 <=? Py.len pin)%nat && (Py.len pin <=? 8)%nat = true ->
    room s ->
    api_step s (inserted staff_c (Staff.mk name role pin true) s)
| step_menuitem item :
    (0 <=? Menuitem.price item)%float = true -> room s ->
    api_step s (inserted menuitem_c item s)
| step_order o :
    Order_ok (Order.subtotal o) (Order.tax o) (Order.total o) = true ->
    Order.status o = "open" -> room s ->
    api_step s (inserted order_c o s)
| step_inventory_new item :
    List.find (has_sku (Inventory.sku item)) (inventory s) = None -> room s ->
    api_step s (inserted inventory_c item s)
| step_inventory_set k e quantity unit reorder_level :
    List.find (has_sku k) (inventory s) = Some e ->
    api_step s
      (with_docs inventory_c
         (update_first (fun d => String.eqb (_id d) (_id e))
            (fun f => Inventory.mk (Inventory.sku f) quantity unit reorder_level)
            (inventory s)) s).

(** The stores the API builds from the empty one. *)
Definition reachable (n : string) (s : Store) : Prop :=
  exists rs : list Request,
    fold_left (fun db r => db_after r db) rs (live n empty_store) = live n s.

(** What the schemas let into each collection. *)
Definition staff_valid (d : Document ObjectId Staff.t) : Prop :=
  Staff.is_active (fields d) = true /\
  (4 <= Py.len (Staff.pin (fields d)) <= 8)%nat.

Definition menuitem_valid (d : Document ObjectId Menuitem.t) : Prop :=
  (0 <=? Menuitem.price (fields d))%float = true.

Definition order_valid (d : Document ObjectId Order.t) : Prop :=
  Order.status (fields d) = "open" /\
  Order_ok (Order.subtotal (fields d)) (Order.tax (fields d))
    (Order.total (fields d)) = true.

Definition skus (s : Store) : list string :=
  List.map (fun d => Inventory.sku (fields d)) (inventory s).

(** The status code a request is answered with. *)
Definition status_after (r : Request) (db : Db) : Z :=
  match r with
  | Get_root => status_code_of (snd (GET_root db))
  | Get_test url => status_code_of (snd (GET_test url db))
  | Get_api_menu => status_code_of (snd (GET_api_menu db))
  | Post_api_menu p => status_code_of (snd (POST_api_menu p db))
  | Post_api_orders p => status_code_of (snd (POST_api_orders p db))
  | Get_api_orders => status_code_of (snd (GET_api_orders db))
  | Get_api_inventory => status_code_of (snd (GET_api_inventory db))
  | Post_api_inventory i => status_code_of (snd (POST_api_inventory i db))
  | Post_api_staff st => status_code_of (snd (POST_api_staff st db))
  | Post_api_auth_login l => status_code_of (snd (POST_api_auth_login l db))
  end.

(** Requests that only read. *)
Definition reads_only (r : Request) : bool :=
  match r with
  | Get_root | Get_test _ | Get_api_menu | Get_api_orders | Get_api_inventory
  | Post_api_auth_login _ => true
  | _ => false
  end.

(** The query of [login]: this pin, and active. *)
Definition pin_matches (pin : string) (d : Document ObjectId Staff.t) : bool :=
  String.eqb (Staff.pin (fields d)) pin
  && Bool.eqb (Staff.is_active (fields d)) true.

(** The state kept across upserts: the store is live and well formed and
    exactly one record carries the sku [k], under the identifier [i]. *)
Definition one_record (n : string) (i : ObjectId) (k : string) (db : Db) : Prop :=
  exists s f,
    db = live n s /\ store_inv s = true /\
    List.filter (has_sku k) (inventory s) = [Doc i f].

(** ** Sample data *)

Definition soup : Document ObjectId Menuitem.t :=
  Doc (ObjectId_numbered 7) (Menuitem.mk "Soup" None 10 None true).
Definition tea : Document ObjectId Menuitem.t :=
  Doc (ObjectId_numbered 8) (Menuitem.mk "Tea" (Some "black") 2.5 (Some "Drinks") true).
Definition ana : Document ObjectId Staff.t :=
  Doc (ObjectId_numbered 1) (Staff.mk "Ana" "manager" "1234" true).
Definition bob : Document ObjectId Staff.t :=
  Doc (ObjectId_numbered 2) (Staff.mk "Bob" "cashier" "9999" false).
Definition pie : Document ObjectId Menuitem.t :=
  Doc (ObjectId_numbered 10) (Menuitem.mk "Pie" None 4.2 (Some "Snacks") true).
Definition cafe : Store := mkStore [ana; bob] [soup; tea; pie] [] [] 11.

Definition free_lunch : MenuCreate.t :=
  MenuCreate.mk "Lunch" None (-1) (Some "Mains") true.
Definition cake : MenuCreate.t :=
  MenuCreate.mk "Cake" (Some "carrot") 3.75 None true.
Definition short_pin : StaffCreate.t := StaffCreate.mk "Cy" "chef" "12".
Definition three_letters : StaffCreate.t := StaffCreate.mk "Zoé" "chef" "ééé".
Definition four_euros : StaffCreate.t := StaffCreate.mk "Max" "cashier" "€€€€".
Definition gold_bar : MenuCreate.t :=
  MenuCreate.mk "Gold bar" None infinity None true.

Definition soup_x3 : OrderCreate.t :=
  OrderCreate.mk None [OrderItem.mk "000000000000000000000007" 3] None.
Definition soup_x3_less_1 : OrderCreate.t :=
  OrderCreate.mk None
    [OrderItem.mk "000000000000000000000007" 3;
     OrderItem.mk "000000000000000000000007" (-1)] (Some "one returned").
Definition soup_less_1 : OrderCreate.t :=
  OrderCreate.mk None [OrderItem.mk "000000000000000000000007" (-1)] None.
Definition no_such_id : OrderCreate.t :=
  OrderCreate.mk None
    [OrderItem.mk "000000000000000000000007" 1;
     OrderItem.mk "0000000000000000000000aa" 2;
     OrderItem.mk "0000000000000000000000bb" 1] None.
Definition no_such_id_and_garbage : OrderCreate.t :=
  OrderCreate.mk None
    [OrderItem.mk "0000000000000000000000aa" 2; OrderItem.mk "soup" 1] None.
Definition garbage_id : OrderCreate.t :=
  OrderCreate.mk (Some "x") [OrderItem.mk "soup" 1] None.
Definition milk_4 : InventoryUpsert.t :=
  InventoryUpsert.mk "milk" 4 "L" None.
Definition milk_9 : InventoryUpsert.t :=
  InventoryUpsert.mk "milk" 9.5 "L" (Some 2%float).
Definition rice_20 : InventoryUpsert.t :=
  InventoryUpsert.mk "rice" 20 "kg" (Some 5%float).
Definition pie_in_capitals : OrderCreate.t :=
  OrderCreate.mk None [OrderItem.mk "00000000000000000000000A" 1] None.
Definition dee : StaffCreate.t := StaffCreate.mk "Dee" "chef" "4321".
Definition opening : list Request :=
  [Post_api_menu cake; Post_api_staff dee; Post_api_inventory milk_4;
   Post_api_menu free_lunch; Post_api_inventory rice_20;
   Post_api_orders
     (OrderCreate.mk None [OrderItem.mk "000000000000000000000000" 2] None);
   Post_api_inventory milk_9; Post_api_auth_login (StaffLogin.mk "4321")].
Definition opened : Store :=
  Eval vm_compute in
    match fold_left (fun db r => db_after r db) opening (live "cafe" empty_store)
    with
    | Some (mkDatabase _ (Up s)) => s
    | _ => empty_store
    end.
Definition too_many_soups : OrderCreate.t :=
  OrderCreate.mk None
    [OrderItem.mk "000000000000000000000008" 1;
     OrderItem.mk "000000000000000000000007" (2 ^ 1024)] None.
Definition mint : Document ObjectId Menuitem.t :=
  Doc (ObjectId_numbered 0) (Menuitem.mk "Mint" None 0.2143 None true).
Definition gold : Document ObjectId Menuitem.t :=
  Doc (ObjectId_numbered 1) (Menuitem.mk "Gold" None 1e300 None true).
Definition kiosk : Store := mkStore [] [mint; gold] [] [] 2.
Definition one_mint : OrderCreate.t :=
  OrderCreate.mk None [OrderItem.mk "000000000000000000000000" 1] None.
Definition gold_by_the_billion : OrderCreate.t :=
  OrderCreate.mk None [OrderItem.mk "000000000000000000000001" (10 ^ 9)] None.
Definition soup_with_whitespace : OrderCreate.t :=
  OrderCreate.mk None [OrderItem.mk "00000000000000000000 07 " 1] None.
Definition tea_less_2 : OrderCreate.t :=
  OrderCreate.mk None [OrderItem.mk "000000000000000000000008" (-2)] None.

(** Goals about the sample data. *)
Ltac sample :=
  repeat match goal with
    | |- Forall2 _ _ _ => constructor
    | |- Forall _ _ => constructor
    | |- refers _ _ _ => split; [simpl; tauto | reflexivity]
    | |- converts _ _ => reflexivity
    | |- _ <> _ => discriminate
    end.

(** ** Identifiers print and parse back *)

Lemma hex_value_digit d : (d < 16)%N -> Py.hex_value (Py.hex_digit d) = Some d.
Proof.
  intros H.
  assert (Hc : List.In d (List.map N.of_nat (seq 0 16))).
  { apply in_map_iff. exists (N.to_nat d). split; [lia|]. apply in_seq. lia. }
  simpl in Hc.
  repeat (destruct Hc as [<-|Hc]; [reflexivity|]). destruct Hc.
Qed.

Lemma hex_digit_plain d :
  Py.isspace (Py.hex_digit d) = false /\ Py.continues (Py.hex_digit d) = false.
Proof.
  destruct d as [|p]; [now split|].
  do 4 (destruct p as [p|p|]; try now split).
Qed.

Lemma byte_of_digits c :
  ascii_of_N (N_of_ascii c / 16 * 16 + N_of_ascii c mod 16) = c.
Proof.
  rewrite N.mul_comm, <- N.div_mod by discriminate. apply ascii_N_embedding.
Qed.

Lemma fromhex_hexlify b : Py.fromhex (Py.hexlify b) = Some b.
Proof.
  induction b as [|c b IH]; [reflexivity|].
  assert (Hhi : (N_of_ascii c / 16 < 16)%N).
  { apply N.Div0.div_lt_upper_bound. pose proof (N_ascii_bounded c). lia. }
  assert (Hlo : (N_of_ascii c mod 16 < 16)%N) by (apply N.mod_lt; lia).
  cbn [Py.hexlify Py.fromhex].
  destruct (hex_digit_plain (N_of_ascii c / 16)) as [-> _].
  rewrite !hex_value_digit, IH by assumption.
  now rewrite byte_of_digits.
Qed.

Lemma len_hexlify b : Py.len (Py.hexlify b) = (2 * String.length b)%nat.
Proof.
  induction b as [|c b IH]; [reflexivity|].
  cbn [Py.hexlify Py.len String.length].
  destruct (hex_digit_plain (N_of_ascii c / 16)) as [_ ->].
  destruct (hex_digit_plain (N_of_ascii c mod 16)) as [_ ->].
  rewrite IH. lia.
Qed.

Lemma ObjectId_of_str o : valid_id o -> ObjectId_of (str o) = Some o.
Proof.
  unfold valid_id, ObjectId_of, str. intros Hv.
  rewrite len_hexlify, Hv. cbn [Nat.mul Nat.add Nat.eqb].
  apply fromhex_hexlify.
Qed.

Lemma str_inj o1 o2 : valid_id o1 -> valid_id o2 -> str o1 = str o2 -> o1 = o2.
Proof.
  intros _ _ E. pose proof (fromhex_hexlify o1) as H1.
  unfold str in E. rewrite E, fromhex_hexlify in H1. congruence.
Qed.

Lemma bytes_of_length k : forall n acc,
  String.length (bytes_of k n acc) = (k + String.length acc)%nat.
Proof.
  induction k as [|k IH]; intros n acc; simpl; [reflexivity|].
  rewrite IH. simpl. lia.
Qed.

Lemma bytes_value_of k : forall n acc a,
  bytes_value (bytes_of k n acc) a
  = bytes_value acc (a * 256 ^ N.of_nat k + n mod 256 ^ N.of_nat k)%N.
Proof.
  induction k as [|k IH]; intros n acc a.
  - simpl. rewrite N.mod_1_r. f_equal. lia.
  - cbn [bytes_of]. rewrite IH. cbn [bytes_value].
    rewrite N_ascii_embedding by (apply N.mod_lt; lia).
    f_equal. rewrite Nat2N.inj_succ, N.pow_succ_r'.
    rewrite (N.Div0.mod_mul_r n 256 (256 ^ N.of_nat k)). lia.
Qed.

Lemma ObjectId_numbered_valid n : valid_id (ObjectId_numbered n).
Proof. unfold valid_id, ObjectId_numbered. now rewrite bytes_of_length. Qed.

Lemma ObjectId_value_numbered n :
  (n < 2 ^ 96)%N -> ObjectId_value (ObjectId_numbered n) = n.
Proof.
  intros Hn. unfold ObjectId_value, ObjectId_numbered.
  rewrite bytes_value_of. cbn [bytes_value].
  change (256 ^ N.of_nat 12)%N with (2 ^ 96)%N.
  rewrite N.mod_small by exact Hn. lia.
Qed.

(** ** The numbers and identifiers of Python, tried out *)

Example round_half_even :
  (Py.round 0.125 2, Py.round 0.375 2, Py.round 2.675 2, Py.round (-0.001) 2)
  = (0.12, 0.38, 2.67, -0)%float.
Proof. vm_compute. reflexivity. Qed.

Example round_of_large :
  (Py.round 1e300 2, Py.round 123456789012345.678 2, Py.round infinity 2)
  = (1e300, 123456789012345.67, infinity)%float.
Proof. vm_compute. reflexivity. Qed.

Example float_of_int_cases :
  (Py.float_of_int (-3), Py.float_of_int 9007199254740993,
   Py.float_of_int (2 ^ 1024))
  = (Some (-3)%float, Some 9007199254740992%float, None).
Proof. vm_compute. reflexivity. Qed.

Example ObjectId_cases :
  (str (ObjectId_numbered 10), ObjectId_of "00000000000000000000000A",
   ObjectId_of "soup", ObjectId_of "00000000000000000000000g",
   ObjectId_of "0000000000000000000000 0")
  = ("00000000000000000000000a", Some (ObjectId_numbered 10), None, None, None).
Proof. vm_compute. reflexivity. Qed.

(** Whitespace where a byte may start is skipped: 24 characters can spell
    fewer than twelve bytes, here eleven. *)
Example ObjectId_with_whitespace :
  option_map String.length (ObjectId_of "00000000000000000000 07 ") = Some 11%nat
  /\ option_map str (ObjectId_of "00000000000000000000 07 ")
     = Some "0000000000000000000007".
Proof. split; vm_compute; reflexivity. Qed.

Example len_counts_characters :
  (Py.len "€€€€", String.length "€€€€", Py.len "ééé", Py.take 2 "é€a")
  = (4%nat, 12%nat, 3%nat, "é€").
Proof. vm_compute. reflexivity. Qed.

(** The table of [create_order] is keyed by [str], the lookup uses the
    request's own spelling: an identifier in capitals parses, finds the pie
    in the store, and misses it in the table. *)
Example capitals_miss_the_table :
  POST_api_orders pie_in_capitals (live "cafe" cafe)
  = (live "cafe" cafe,
     ErrorResponse 400 "Menu item not found: 00000000000000000000000A").
Proof. vm_compute. reflexivity. Qed.

Example test_database_when_down :
  snd (GET_test (Some "mongodb://db") (Some (mkDatabase "cafe" (Down "timed out"))))
  = JSONResponse 200
      (Status.mk "✅ Running" "⚠️ Connected but Error: timed out" (Some "✅ Set")
         (Some "cafe") "Connected" []).
Proof. vm_compute. reflexivity. Qed.

(** ** What the store invariant gives *)

Lemma ids_ok_spec {T} n (l : list (Document ObjectId T)) :
  ids_ok n l = true ->
  Forall (fun d => drawn n (_id d)) l /\ List.NoDup (List.map _id l).
Proof.
  unfold ids_ok. intros H. apply andb_true_iff in H as [H1 H2]. split.
  - apply Forall_forall. intros d Hd. apply list_elem_of_In in Hd.
    rewrite forallb_forall in H1. specialize (H1 d Hd).
    apply andb_true_iff in H1 as [Hl Hv]. split.
    + now apply Nat.eqb_eq in Hl.
    + now apply N.ltb_lt in Hv.
  - apply NoDup_ListNoDup. apply bool_decide_eq_true in H2. exact H2.
Qed.

Lemma ids_ok_intro {T} n (l : list (Document ObjectId T)) :
  Forall (fun d => drawn n (_id d)) l -> List.NoDup (List.map _id l) ->
  ids_ok n l = true.
Proof.
  intros H1 H2. unfold ids_ok. apply andb_true_iff. split.
  - apply forallb_forall. intros d Hd.
    rewrite Forall_forall in H1. apply list_elem_of_In in Hd.
    destruct (H1 d Hd) as [Hl Hv]. apply andb_true_iff. split.
    + now apply Nat.eqb_eq.
    + now apply N.ltb_lt.
  - apply bool_decide_eq_true. apply NoDup_ListNoDup. exact H2.
Qed.

Lemma store_inv_menuitem s d :
  store_inv s = true -> In d (menuitem s) -> valid_id (_id d).
Proof.
  unfold store_inv. intros H Hd.
  repeat (apply andb_true_iff in H as [H ?]).
  match goal with Hm : ids_ok _ (menuitem s) = true |- _ =>
    apply ids_ok_spec in Hm as [Hlt _] end.
  rewrite Forall_forall in Hlt. apply list_elem_of_In in Hd.
  now destruct (Hlt d Hd).
Qed.

Lemma wf_store_inv s : wf_store s = true -> store_inv s = true.
Proof. unfold wf_store. intros H. apply andb_true_iff in H. tauto. Qed.

Lemma wf_store_room s : wf_store s = true -> (next_id s <? 2 ^ 96)%N = true.
Proof. unfold wf_store. intros H. apply andb_true_iff in H. tauto. Qed.

(** ** The lookup table of [create_order] *)

Lemma menu_map_of_snoc found d :
  menu_map_of (found ++ [d]) = <[str (_id d) := d]> (menu_map_of found).
Proof. unfold menu_map_of. now rewrite foldl_snoc. Qed.

Lemma menu_map_of_None found k :
  (forall d, In d found -> str (_id d) <> k) -> menu_map_of found !! k = None.
Proof.
  induction found as [|d found IH] using rev_ind; intros H.
  - apply lookup_empty.
  - rewrite menu_map_of_snoc, lookup_insert_ne.
    + apply IH. intros d' Hd'. apply H, in_or_app. now left.
    + apply H, in_or_app. right. now left.
Qed.

Lemma menu_map_of_Some found k :
  (exists d, In d found /\ str (_id d) = k) ->
  exists d, In d found /\ str (_id d) = k /\ menu_map_of found !! k = Some d.
Proof.
  induction found as [|a found IH] using rev_ind; intros [d [Hd Hk]].
  - destruct Hd.
  - rewrite menu_map_of_snoc.
    destruct (decide (str (_id a) = k)) as [E|NE].
    + exists a. rewrite <- E, lookup_insert_eq.
      repeat split. apply in_or_app. right. now left.
    + apply in_app_or in Hd as [Hd|[->|[]]]; [|contradiction].
      destruct IH as [d' (H1 & H2 & H3)]; [now exists d|].
      exists d'. rewrite lookup_insert_ne by exact NE.
      repeat split; [apply in_or_app; now left|assumption|assumption].
Qed.

Lemma NoDup_map_eq {A B} (f : A -> B) (l : list A) x y :
  List.NoDup (List.map f l) -> In x l -> In y l -> f x = f y -> x = y.
Proof.
  induction l as [|a l IH]; intros Hn Hx Hy E; [destruct Hx|].
  simpl in Hn. inversion Hn as [|? ? Hni Hn']; subst.
  destruct Hx as [->|Hx], Hy as [->|Hy].
  - reflexivity.
  - exfalso. apply Hni. rewrite E. now apply in_map.
  - exfalso. apply Hni. rewrite <- E. now apply in_map.
  - now apply IH.
Qed.

(** With a well-formed store, the table answers a listed identifier with the
    stored document that carries it. *)
Lemma menu_map_lookup s (ids : list ObjectId) d :
  store_inv s = true -> In d (menuitem s) -> In (_id d) ids ->
  menu_map_of (List.filter (fun d => bool_decide (_id d ∈ ids)) (menuitem s))
    !! str (_id d) = Some d.
Proof.
  intros Hinv Hd Hin.
  set (found := List.filter _ (menuitem s)).
  assert (Hf : In d found).
  { apply filter_In. split; [assumption|].
    apply bool_decide_eq_true, list_elem_of_In, Hin. }
  destruct (menu_map_of_Some found (str (_id d))) as [d' (H1 & H2 & H3)];
    [now exists d|].
  rewrite H3. f_equal.
  apply filter_In in H1 as [H1 _].
  assert (E : _id d' = _id d).
  { apply str_inj; eauto using store_inv_menuitem. }
  unfold store_inv in Hinv.
  repeat (apply andb_true_iff in Hinv as [Hinv ?]).
  match goal with Hm : ids_ok _ (menuitem s) = true |- _ =>
    apply ids_ok_spec in Hm as [_ Hnd] end.
  eapply NoDup_map_eq; eauto.
Qed.

Lemma menu_map_unlisted s (ids : list ObjectId) it :
  listed s it = false ->
  menu_map_of (List.filter (fun d => bool_decide (_id d ∈ ids)) (menuitem s))
    !! OrderItem.menu_item_id it = None.
Proof.
  intros Hl. apply menu_map_of_None. intros d Hd E.
  apply filter_In in Hd as [Hd _].
  unfold listed in Hl.
  assert (Ht : existsb (fun d => String.eqb (str (_id d)) (OrderItem.menu_item_id it))
                 (menuitem s) = true).
  { apply existsb_exists. exists d. split; [assumption|]. now apply String.eqb_eq. }
  congruence.
Qed.

Lemma listed_In s it :
  listed s it = true ->
  exists d, In d (menuitem s) /\ OrderItem.menu_item_id it = str (_id d).
Proof.
  unfold listed. intros H. apply existsb_exists in H as [d [Hd E]].
  exists d. split; [assumption|]. symmetry. now apply String.eqb_eq.
Qed.

(** ** Running [create_order] *)

Lemma oids_invalid items :
  (exists it, In it items /\ ObjectId_of (OrderItem.menu_item_id it) = None) ->
  oids items = inl (HTTPException 400 "Invalid id").
Proof.
  induction items as [|i rest IH]; intros [it [Hin Hbad]]; [destruct Hin|].
  cbn [oids]. unfold oid.
  destruct (ObjectId_of (OrderItem.menu_item_id i)) eqn:E; [|reflexivity].
  destruct Hin as [->|Hin]; [congruence|].
  rewrite IH; [reflexivity|]. now exists it.
Qed.

Lemma oids_valid items :
  Forall (fun it => ObjectId_of (OrderItem.menu_item_id it) <> None) items ->
  exists ids, oids items = inr ids /\
    Forall2 (fun it o => ObjectId_of (OrderItem.menu_item_id it) = Some o)
      items ids.
Proof.
  induction 1 as [|i rest Hi _ IH].
  - exists []. split; [reflexivity|constructor].
  - destruct IH as [ids [E F]].
    destruct (ObjectId_of (OrderItem.menu_item_id i)) as [o|] eqn:Eo;
      [|contradiction].
    exists (o :: ids). cbn [oids]. unfold oid. rewrite Eo, E.
    split; [reflexivity|now constructor].
Qed.

Lemma oids_parsed_In items ids it o :
  Forall2 (fun it o => ObjectId_of (OrderItem.menu_item_id it) = Some o)
    items ids ->
  In it items -> ObjectId_of (OrderItem.menu_item_id it) = Some o -> In o ids.
Proof.
  induction 1 as [|i o' rest ids' Ho _ IH]; intros Hin E; [destruct Hin|].
  destruct Hin as [->|Hin].
  - left. congruence.
  - right. now apply IH.
Qed.

(** The loop over items the table knows, with quantities that convert. *)
Lemma price_items_ok mm items : forall ds qs subtotal item_lines,
  Forall2 (fun it d => mm !! OrderItem.menu_item_id it = Some d) items ds ->
  Forall2 (fun it q => Py.float_of_int (OrderItem.quantity it) = Some q)
    items qs ->
  price_items mm items subtotal item_lines
  = inr (accumulate subtotal (List.map (fun d => Menuitem.price (fields d)) ds) qs,
         item_lines ++ lines_of items ds).
Proof.
  induction items as [|it rest IH]; intros ds qs subtotal item_lines Hd Hq.
  - inversion Hd; inversion Hq; subst. cbn. now rewrite app_nil_r.
  - inversion Hd as [|? d ? ds' Hm Hd']; inversion Hq as [|? q ? qs' Hc Hq'];
      subst.
    cbn [price_items]. rewrite Hm, Hc, (IH ds' qs') by assumption.
    cbn [List.map accumulate combine fold_left fst snd lines_of].
    unfold accumulate, lines_of. now rewrite <- app_assoc.
Qed.

(** The loop stops at the first item the table does not know. *)
Lemma price_items_missing mm items : forall subtotal item_lines it,
  List.find (fun it => bool_decide (mm !! OrderItem.menu_item_id it = None))
    items = Some it ->
  Forall (fun it => Py.float_of_int (OrderItem.quantity it) <> None) items ->
  price_items mm items subtotal item_lines
  = inl (HTTPException 400
           ("Menu item not found: " +:+ OrderItem.menu_item_id it)).
Proof.
  induction items as [|i rest IH]; intros subtotal item_lines it Hf Hq;
    [discriminate|].
  inversion Hq as [|? ? Hc Hq']; subst.
  cbn [price_items List.find] in *.
  destruct (mm !! OrderItem.menu_item_id i) as [m|] eqn:Em.
  - rewrite bool_decide_eq_false_2 in Hf by discriminate.
    destruct (Py.float_of_int (OrderItem.quantity i)); [|contradiction].
    now apply IH.
  - rewrite bool_decide_eq_true_2 in Hf by reflexivity.
    now inversion Hf.
Qed.

(** After the identifiers have parsed: the loop, the amounts, the schema
    check, the insert. *)
Lemma create_order_run n s payload ids :
  oids (OrderCreate.items payload) = inr ids ->
  create_order payload (live n s) =
    match price_items
            (menu_map_of
               (List.filter (fun d => bool_decide (_id d ∈ ids)) (menuitem s)))
            (OrderCreate.items payload) 0%float [] with
    | inl e => (live n s, inl e)
    | inr (subtotal, item_lines) =>
        let tax := Py.round (subtotal * 0.07)%float 2 in
        let total := Py.round (subtotal + tax)%float 2 in
        match Order.new (OrderCreate.staff_id payload) item_lines
                (Py.round subtotal 2) tax total "open"
                (OrderCreate.note payload) with
        | inl e => (live n s, inl e)
        | inr order_doc =>
            if (next_id s <? 2 ^ 96)%N
            then (live n (inserted order_c order_doc s),
                  inr (OrderCreated.mk (str (fresh_id s))
                         (Order.subtotal order_doc) (Order.tax order_doc)
                         (Order.total order_doc)))
            else (live n s, inl (StoreError "no identifier left"))
        end
    end.
Proof.
  intros Hids.
  unfold create_order, mbind, M_bind, bind, lift, find, create_document,
    on_store, live, mret, M_ret, ret.
  rewrite Hids. cbn [docs menuitem_c].
  destruct (price_items _ _ _ _) as [e|[subtotal item_lines]]; [reflexivity|].
  cbn [fst snd].
  destruct (Order.new _ _ _ _ _ _ _) as [e|order_doc]; [reflexivity|].
  cbn zeta. destruct (next_id s <? 2 ^ 96)%N; reflexivity.
Qed.

(** Requested items that refer to stored menu items: the identifiers parse
    and the table answers each with its document. *)
Lemma oids_refs s items ds :
  store_inv s = true ->
  Forall2 (fun it d => In d (menuitem s) /\
                       OrderItem.menu_item_id it = str (_id d)) items ds ->
  oids items = inr (List.map _id ds).
Proof.
  intros Hinv. induction 1 as [|it d rest ds' [Hin E] _ IH]; [reflexivity|].
  cbn [oids List.map]. unfold oid.
  rewrite E, ObjectId_of_str by eauto using store_inv_menuitem.
  now rewrite IH.
Qed.

Lemma refs_lookup s (ids : list ObjectId) items ds :
  store_inv s = true ->
  (forall d, In d ds -> In (_id d) ids) ->
  Forall2 (fun it d => In d (menuitem s) /\
                       OrderItem.menu_item_id it = str (_id d)) items ds ->
  Forall2 (fun it d =>
      menu_map_of (List.filter (fun d => bool_decide (_id d ∈ ids)) (menuitem s))
        !! OrderItem.menu_item_id it = Some d) items ds.
Proof.
  intros Hinv Hids. induction 1 as [|it d rest ds' [Hin E] _ IH]; constructor.
  - rewrite E. apply menu_map_lookup; [assumption..|]. apply Hids. now left.
  - apply IH. intros d' Hd'. apply Hids. now right.
Qed.

(** The request reaches the schema check with the amounts computed from the
    full-precision sum. *)
Lemma create_order_priced n s payload ds qs :
  store_inv s = true ->
  Forall2 (fun it d => In d (menuitem s) /\
                       OrderItem.menu_item_id it = str (_id d))
    (OrderCreate.items payload) ds ->
  Forall2 (fun it q => Py.float_of_int (OrderItem.quantity it) = Some q)
    (OrderCreate.items payload) qs ->
  create_order payload (live n s) =
    let sum := accumulate 0 (List.map (fun d => Menuitem.price (fields d)) ds) qs in
    let tax := Py.round (sum * 0.07)%float 2 in
    let total := Py.round (sum + tax)%float 2 in
    match Order.new (OrderCreate.staff_id payload)
            (lines_of (OrderCreate.items payload) ds)
            (Py.round sum 2) tax total "open" (OrderCreate.note payload) with
    | inl e => (live n s, inl e)
    | inr order_doc =>
        if (next_id s <? 2 ^ 96)%N
        then (live n (inserted order_c order_doc s),
              inr (OrderCreated.mk (str (fresh_id s))
                     (Order.subtotal order_doc) (Order.tax order_doc)
                     (Order.total order_doc)))
        else (live n s, inl (StoreError "no identifier left"))
    end.
Proof.
  intros Hinv Href Hq.
  rewrite (create_order_run n s payload (List.map _id ds))
    by eauto using oids_refs.
  rewrite (price_items_ok _ _ ds qs); [reflexivity| |assumption].
  apply refs_lookup; [assumption| |assumption].
  intros d Hd. now apply in_map.
Qed.

Lemma Order_new_ok staff_id items subtotal tax total status note :
  Order_ok subtotal tax total = true ->
  Order.new staff_id items subtotal tax total status note
  = inr (Order.mk staff_id items subtotal tax total status note).
Proof.
  unfold Order_ok, Order.new. intros H.
  apply andb_true_iff in H as [H H3]. apply andb_true_iff in H as [H1 H2].
  now rewrite H1, H2, H3.
Qed.

Lemma Order_new_rejects staff_id items subtotal tax total status note :
  Order_ok subtotal tax total = false ->
  exists field,
    Order.new staff_id items subtotal tax total status note
    = inl (ValidationError "Order" field).
Proof.
  unfold Order_ok, Order.new. intros H.
  destruct (0 <=? subtotal)%float; [|eexists; reflexivity].
  destruct (0 <=? tax)%float; [|eexists; reflexivity].
  destruct (0 <=? total)%float; [discriminate|eexists; reflexivity].
Qed.

(** The loop stops at an item the table does not know once the items in
    front of it are known and their quantities convert. *)
Lemma price_items_stops mm pre it post : forall subtotal item_lines,
  Forall (fun x => mm !! OrderItem.menu_item_id x <> None /\
                   Py.float_of_int (OrderItem.quantity x) <> None) pre ->
  mm !! OrderItem.menu_item_id it = None ->
  price_items mm (pre ++ it :: post) subtotal item_lines
  = inl (HTTPException 400
           ("Menu item not found: " +:+ OrderItem.menu_item_id it)).
Proof.
  induction pre as [|x pre IH]; intros subtotal item_lines Hpre Hit.
  - cbn [app price_items]. now rewrite Hit.
  - inversion Hpre as [|? ? [Hm Hc] Hpre']; subst.
    cbn [app price_items].
    destruct (mm !! OrderItem.menu_item_id x); [|contradiction].
    destruct (Py.float_of_int (OrderItem.quantity x)); [|contradiction].
    now apply IH.
Qed.

Lemma find_unlisted_split s items it :
  List.find (fun it => negb (listed s it)) items = Some it ->
  listed s it = false /\
  Forall (fun x => listed s x = true) (listed_prefix s items) /\
  exists post, items = listed_prefix s items ++ it :: post.
Proof.
  induction items as [|x items IH]; [discriminate|].
  cbn [List.find listed_prefix]. destruct (listed s x) eqn:E; cbn [negb].
  - intros H. destruct (IH H) as (H1 & H2 & post & H3).
    repeat split; [assumption|now constructor|].
    exists post. cbn [app]. now rewrite <- H3.
  - intros H. injection H as <-. repeat split; [assumption|constructor|].
    now exists items.
Qed.

(** What the route answers once every item refers to a stored menu item and
    every quantity converts: the schema check decides whether the order is
    stored, the JSON rendering of the amounts whether the answer is 201. *)
Lemma POST_api_orders_priced n s payload ds qs :
  wf_store s = true ->
  Forall2 (refers s) (OrderCreate.items payload) ds ->
  Forall2 converts (OrderCreate.items payload) qs ->
  POST_api_orders payload (live n s) =
    let S := accumulate 0 (List.map (fun d => Menuitem.price (fields d)) ds) qs in
    let subtotal := Py.round S 2 in
    let tax := Py.round (S * 0.07)%float 2 in
    let total := Py.round (S + tax)%float 2 in
    let stored :=
      live n
        (inserted order_c
           (Order.mk (OrderCreate.staff_id payload)
              (lines_of (OrderCreate.items payload) ds)
              subtotal tax total "open" (OrderCreate.note payload)) s) in
    if Order_ok subtotal tax total
    then if amounts_finite subtotal tax total
         then (stored,
               JSONResponse 201
                 (OrderCreated.mk (str (fresh_id s)) subtotal tax total))
         else (stored, ErrorResponse 500 "Internal Server Error")
    else (live n s, ErrorResponse 500 "Internal Server Error").
Proof.
  intros Hwf Href Hq. unfold POST_api_orders, route.
  rewrite (create_order_priced n s payload ds qs)
    by eauto using wf_store_inv.
  cbn zeta.
  set (S := accumulate _ _ _). set (tax := Py.round (S * 0.07) 2).
  set (total := Py.round (S + tax) 2). set (subtotal := Py.round S 2).
  destruct (Order_ok subtotal tax total) eqn:Hok.
  - rewrite Order_new_ok by exact Hok.
    rewrite wf_store_room by exact Hwf. reflexivity.
  - destruct (Order_new_rejects (OrderCreate.staff_id payload)
                (lines_of (OrderCreate.items payload) ds)
                subtotal tax total "open" (OrderCreate.note payload) Hok)
      as [field ->].
    reflexivity.
Qed.

(** ** Order pricing *)

(** C1 (as amended).  When every requested item refers to a stored menu item,
    every quantity converts to a float, the three amounts pass the [ge=0]
    checks of [Order] and are finite, the request is answered 201 and the
    order stored with subtotal = round(S, 2), tax = round(S * 0.07, 2) and
    total = round(S + tax, 2), where S is the sum of price * quantity
    accumulated from 0.0 in floating point and rounded nowhere else. *)
Theorem create_order_amounts n s payload ds qs :
  wf_store s = true ->
  Forall2 (refers s) (OrderCreate.items payload) ds ->
  Forall2 converts (OrderCreate.items payload) qs ->
  let S := accumulate 0 (List.map (fun d => Menuitem.price (fields d)) ds) qs in
  let subtotal := Py.round S 2 in
  let tax := Py.round (S * 0.07)%float 2 in
  let total := Py.round (S + tax)%float 2 in
  Order_ok subtotal tax total = true ->
  amounts_finite subtotal tax total = true ->
  POST_api_orders payload (live n s)
  = (live n
       (inserted order_c
          (Order.mk (OrderCreate.staff_id payload)
             (lines_of (OrderCreate.items payload) ds)
             subtotal tax total "open" (OrderCreate.note payload)) s),
     JSONResponse 201 (OrderCreated.mk (str (fresh_id s)) subtotal tax total)).
Proof.
  intros Hwf Href Hq S subtotal tax total Hok Hfin.
  rewrite (POST_api_orders_priced n s payload ds qs Hwf Href Hq).
  cbn zeta. fold S. fold tax. fold total. fold subtotal.
  now rewrite Hok, Hfin.
Qed.

(** One item priced 10.00, quantity 3: subtotal 30.00, tax 2.10, total
    32.10. *)
Lemma create_order_amounts_witness :
  wf_store cafe = true /\
  Forall2 (refers cafe) (OrderCreate.items soup_x3) [soup] /\
  Forall2 converts (OrderCreate.items soup_x3) [3%float] /\
  Order_ok 30 2.1 32.1 = true /\
  amounts_finite 30 2.1 32.1 = true /\
  POST_api_orders soup_x3 (live "cafe" cafe)
  = (live "cafe"
       (inserted order_c
          (Order.mk None
             [ItemLine.mk "000000000000000000000007" 3 10 "Soup"]
             30 2.1 32.1 "open" None) cafe),
     JSONResponse 201 (OrderCreated.mk "00000000000000000000000b" 30 2.1 32.1)).
Proof.
  assert (Hwf : wf_store cafe = true) by reflexivity.
  assert (Href : Forall2 (refers cafe) (OrderCreate.items soup_x3) [soup]).
  { sample. }
  assert (Hq : Forall2 converts (OrderCreate.items soup_x3) [3%float]).
  { sample. }
  assert (Hok : Order_ok 30 2.1 32.1 = true) by reflexivity.
  assert (Hfin : amounts_finite 30 2.1 32.1 = true) by reflexivity.
  refine (conj Hwf (conj Href (conj Hq (conj Hok (conj Hfin _))))).
  exact (create_order_amounts "cafe" cafe soup_x3 [soup] [3%float]
           Hwf Href Hq Hok Hfin).
Defined.

(** C1 fails as stated, three times over.  Tea at 2.50 with quantity -2
    refers to a stored menu item, yet no amounts come back: [Order] refuses
    the subtotal -5.00, the request ends in a 500 and nothing is stored.
    Gold at 1e300 with quantity 10^9 gives infinite amounts: the order is
    stored and the answer is a 500.  One mint at 0.2143 is answered with
    subtotal 0.21 and tax 0.02, which is round(S * 0.07, 2) and not
    round(0.21 * 0.07, 2) = 0.01. *)
Lemma create_order_amounts_counterexample :
  (Forall2 (refers cafe) (OrderCreate.items tea_less_2) [tea] /\
   Forall2 converts (OrderCreate.items tea_less_2) [(-2)%float] /\
   POST_api_orders tea_less_2 (live "cafe" cafe)
   = (live "cafe" cafe, ErrorResponse 500 "Internal Server Error")) /\
  (Forall2 (refers kiosk) (OrderCreate.items gold_by_the_billion) [gold] /\
   Forall2 converts (OrderCreate.items gold_by_the_billion) [1e9%float] /\
   snd (POST_api_orders gold_by_the_billion (live "kiosk" kiosk))
   = ErrorResponse 500 "Internal Server Error" /\
   List.map (fun d => Order.subtotal (fields d))
     match fst (POST_api_orders gold_by_the_billion (live "kiosk" kiosk)) with
     | Some (mkDatabase _ (Up s')) => order s'
     | _ => []
     end = [infinity]) /\
  (Forall2 (refers kiosk) (OrderCreate.items one_mint) [mint] /\
   snd (POST_api_orders one_mint (live "kiosk" kiosk))
   = JSONResponse 201
       (OrderCreated.mk "000000000000000000000002" 0.21 0.02 0.23) /\
   Py.round (0.21 * 0.07) 2 = 0.01%float).
Proof.
  split; [|split].
  - split; [sample|]. split; [sample|]. vm_compute. reflexivity.
  - split; [sample|]. split; [sample|]. split; vm_compute; reflexivity.
  - split; [sample|]. split; vm_compute; reflexivity.
Qed.

(** C7 (as amended).  The handler never looks at the sign of a quantity: when
    every requested item refers to a stored menu item and every quantity
    converts to a float, the order is stored exactly when the three amounts
    pass the [ge=0] checks of [Order], and otherwise the request ends in a
    500 with the store as before; a stored order is answered 201 when its
    amounts are finite, and 500 when they are not. *)
Theorem create_order_quantity_signs n s payload ds qs :
  wf_store s = true ->
  Forall2 (refers s) (OrderCreate.items payload) ds ->
  Forall2 converts (OrderCreate.items payload) qs ->
  let S := accumulate 0 (List.map (fun d => Menuitem.price (fields d)) ds) qs in
  let subtotal := Py.round S 2 in
  let tax := Py.round (S * 0.07)%float 2 in
  let total := Py.round (S + tax)%float 2 in
  let stored :=
    live n
      (inserted order_c
         (Order.mk (OrderCreate.staff_id payload)
            (lines_of (OrderCreate.items payload) ds)
            subtotal tax total "open" (OrderCreate.note payload)) s) in
  if Order_ok subtotal tax total
  then if amounts_finite subtotal tax total
       then POST_api_orders payload (live n s)
            = (stored,
               JSONResponse 201
                 (OrderCreated.mk (str (fresh_id s)) subtotal tax total))
       else POST_api_orders payload (live n s)
            = (stored, ErrorResponse 500 "Internal Server Error")
  else POST_api_orders payload (live n s)
       = (live n s, ErrorResponse 500 "Internal Server Error").
Proof.
  intros Hwf Href Hq S subtotal tax total stored.
  rewrite (POST_api_orders_priced n s payload ds qs Hwf Href Hq).
  cbn zeta. fold S. fold tax. fold total. fold subtotal. fold stored.
  destruct (Order_ok subtotal tax total); [|reflexivity].
  destruct (amounts_finite subtotal tax total); reflexivity.
Qed.

(** Three soups and one returned: the negative quantity is accepted. *)
Lemma create_order_quantity_signs_witness :
  wf_store cafe = true /\
  Forall2 (refers cafe) (OrderCreate.items soup_x3_less_1) [soup; soup] /\
  Forall2 converts (OrderCreate.items soup_x3_less_1) [3%float; (-1)%float] /\
  POST_api_orders soup_x3_less_1 (live "cafe" cafe)
  = (live "cafe"
       (inserted order_c
          (Order.mk None
             [ItemLine.mk "000000000000000000000007" 3 10 "Soup";
              ItemLine.mk "000000000000000000000007" (-1) 10 "Soup"]
             20 1.4 21.4 "open" (Some "one returned")) cafe),
     JSONResponse 201 (OrderCreated.mk "00000000000000000000000b" 20 1.4 21.4)).
Proof.
  assert (Hwf : wf_store cafe = true) by reflexivity.
  assert (Href : Forall2 (refers cafe) (OrderCreate.items soup_x3_less_1)
                   [soup; soup]) by sample.
  assert (Hq : Forall2 converts (OrderCreate.items soup_x3_less_1)
                 [3%float; (-1)%float]) by sample.
  refine (conj Hwf (conj Href (conj Hq _))).
  exact (create_order_quantity_signs "cafe" cafe soup_x3_less_1 [soup; soup]
           [3%float; (-1)%float] Hwf Href Hq).
Defined.

(** C7 fails as stated: one soup with quantity -1 refers to a stored menu
    item and is not accepted. *)
Lemma create_order_quantity_signs_counterexample :
  Forall2 (refers cafe) (OrderCreate.items soup_less_1) [soup] /\
  status_code_of (snd (POST_api_orders soup_less_1 (live "cafe" cafe))) = 500 /\
  fst (POST_api_orders soup_less_1 (live "cafe" cafe)) = live "cafe" cafe.
Proof.
  split; [sample|]. split; vm_compute; reflexivity.
Qed.

(** C10.  An empty [items] list is accepted: the request is answered 201 and
    an order with no lines and subtotal, tax and total 0 is stored and
    returned. *)
Theorem create_order_empty n s staff_id note :
  wf_store s = true ->
  POST_api_orders (OrderCreate.mk staff_id [] note) (live n s)
  = (live n (inserted order_c (Order.mk staff_id [] 0 0 0 "open" note) s),
     JSONResponse 201 (OrderCreated.mk (str (fresh_id s)) 0 0 0)).
Proof.
  intros Hwf.
  rewrite (POST_api_orders_priced n s (OrderCreate.mk staff_id [] note) [] [])
    by (assumption || constructor).
  cbn [accumulate List.map combine fold_left lines_of
       OrderCreate.items OrderCreate.staff_id OrderCreate.note].
  cbn zeta.
  replace (Py.round (0 * 0.07) 2) with 0%float by (vm_compute; reflexivity).
  replace (Py.round (0 + 0) 2) with 0%float by (vm_compute; reflexivity).
  replace (Py.round 0 2) with 0%float by (vm_compute; reflexivity).
  replace (Order_ok 0 0 0) with true by reflexivity.
  replace (amounts_finite 0 0 0) with true by reflexivity.
  reflexivity.
Qed.

Lemma create_order_empty_witness :
  wf_store cafe = true /\
  POST_api_orders (OrderCreate.mk (Some "anyone") [] None) (live "cafe" cafe)
  = (live "cafe"
       (inserted order_c (Order.mk (Some "anyone") [] 0 0 0 "open" None) cafe),
     JSONResponse 201 (OrderCreated.mk "00000000000000000000000b" 0 0 0)).
Proof.
  assert (Hwf : wf_store cafe = true) by reflexivity.
  refine (conj Hwf _).
  exact (create_order_empty "cafe" cafe (Some "anyone") None Hwf).
Defined.

(** ** Identifiers in requests *)

(** C6 (as amended).  A request with a [menu_item_id] that
    [bson.ObjectId] refuses is answered 400 with detail "Invalid id",
    whatever the state of the store, and leaves the store as it was. *)
Theorem create_order_invalid_id db payload it :
  In it (OrderCreate.items payload) ->
  ObjectId_of (OrderItem.menu_item_id it) = None ->
  POST_api_orders payload db = (db, ErrorResponse 400 "Invalid id").
Proof.
  intros Hin Hbad.
  unfold POST_api_orders, route, create_order, mbind, M_bind, bind, lift.
  rewrite oids_invalid; [reflexivity|]. now exists it.
Qed.

Lemma create_order_invalid_id_witness :
  In (OrderItem.mk "soup" 1) (OrderCreate.items garbage_id) /\
  ObjectId_of "soup" = None /\
  POST_api_orders garbage_id None = (None, ErrorResponse 400 "Invalid id").
Proof.
  assert (Hin : In (OrderItem.mk "soup" 1) (OrderCreate.items garbage_id))
    by (simpl; tauto).
  assert (Hbad : ObjectId_of "soup" = None) by reflexivity.
  refine (conj Hin (conj Hbad _)).
  exact (create_order_invalid_id None garbage_id (OrderItem.mk "soup" 1)
           Hin Hbad).
Defined.

(** C6 fails as stated: "00000000000000000000 07 " is the string form of no
    identifier, of twelve bytes or otherwise, yet [bson.ObjectId] reads it,
    skipping the whitespace, as eleven bytes; the request is answered 400
    "Menu item not found" on a live store, and 500 when no store is
    configured. *)
Lemma create_order_invalid_id_counterexample :
  (forall o, str o <> "00000000000000000000 07 ") /\
  option_map String.length (ObjectId_of "00000000000000000000 07 ")
  = Some 11%nat /\
  POST_api_orders soup_with_whitespace (live "cafe" cafe)
  = (live "cafe" cafe,
     ErrorResponse 400 "Menu item not found: 00000000000000000000 07 ") /\
  POST_api_orders soup_with_whitespace None
  = (None, ErrorResponse 500 "Internal Server Error").
Proof.
  split; [|split; [|split]]; try (vm_compute; reflexivity).
  intros o E.
  assert (H : Py.fromhex (str o) = Py.fromhex "00000000000000000000 07 ")
    by now rewrite E.
  unfold str in H. rewrite fromhex_hexlify in H.
  injection H as ->. vm_compute in E. discriminate.
Qed.

Lemma find_ext_in {A} (f g : A -> bool) (l : list A) :
  (forall x, In x l -> f x = g x) -> List.find f l = List.find g l.
Proof.
  induction l as [|a l IH]; intros H; [reflexivity|].
  cbn [List.find]. rewrite (H a) by now left.
  destruct (g a); [reflexivity|]. apply IH. intros x Hx. apply H. now right.
Qed.

Lemma find_exists {A} (f : A -> bool) (l : list A) x :
  In x l -> f x = true -> exists y, List.find f l = Some y.
Proof.
  intros Hin Hf. destruct (List.find f l) as [y|] eqn:E; [now exists y|].
  pose proof (find_none f l E x Hin). congruence.
Qed.

(** C2 (as amended).  Let the request hold an identifier that is well formed
    and is the identifier of no stored menu item.  When some identifier of
    the request is refused by [bson.ObjectId], the request is answered 400
    "Invalid id".  When all are accepted and the quantities of the items in
    front of the first identifier that is not the string form of a stored
    one convert to a float, the request is answered 400 with a detail that
    names that first identifier.  The store is as before in both cases. *)
Theorem create_order_missing_item n s payload it0 o :
  store_inv s = true ->
  In it0 (OrderCreate.items payload) ->
  ObjectId_of (OrderItem.menu_item_id it0) = Some o ->
  (forall d, In d (menuitem s) -> _id d <> o) ->
  (Exists (fun it => ObjectId_of (OrderItem.menu_item_id it) = None)
     (OrderCreate.items payload) ->
   POST_api_orders payload (live n s)
   = (live n s, ErrorResponse 400 "Invalid id")) /\
  (Forall (fun it => ObjectId_of (OrderItem.menu_item_id it) <> None)
     (OrderCreate.items payload) ->
   Forall (fun it => Py.float_of_int (OrderItem.quantity it) <> None)
     (listed_prefix s (OrderCreate.items payload)) ->
   exists it,
     List.find (fun it => negb (listed s it)) (OrderCreate.items payload)
     = Some it /\
     POST_api_orders payload (live n s)
     = (live n s,
        ErrorResponse 400
          ("Menu item not found: " +:+ OrderItem.menu_item_id it))).
Proof.
  intros Hinv Hin Ho Hmiss. split.
  - intros Hbad. apply Exists_exists in Hbad as [it [Hit Hnone]].
    unfold POST_api_orders, route, create_order, mbind, M_bind, bind, lift.
    rewrite oids_invalid; [reflexivity|].
    exists it. split; [now apply list_elem_of_In|assumption].
  - intros Hwell Hq.
    destruct (oids_valid _ Hwell) as [ids [Hids Hparsed]].
    assert (Hunl : listed s it0 = false).
    { destruct (listed s it0) eqn:E; [|reflexivity].
      apply listed_In in E as [d [Hd E]].
      rewrite E, ObjectId_of_str in Ho by eauto using store_inv_menuitem.
      exfalso. apply (Hmiss d Hd). congruence. }
    destruct (find_exists (fun it => negb (listed s it)) _ it0 Hin)
      as [it Hfind]; [now rewrite Hunl|].
    exists it. split; [exact Hfind|].
    destruct (find_unlisted_split s _ it Hfind) as (Hit & Hpre & post & Esplit).
    unfold POST_api_orders, route.
    rewrite (create_order_run n s payload ids Hids).
    set (pre := listed_prefix s (OrderCreate.items payload)) in *.
    clearbody pre. rewrite Esplit.
    rewrite price_items_stops; [reflexivity| |now apply menu_map_unlisted].
    apply Forall_forall. intros x Hx.
    rewrite Forall_forall in Hpre, Hq. split; [|now apply Hq].
    specialize (Hpre x Hx). apply listed_In in Hpre as [d [Hd E]].
    assert (Hxin : In x (OrderCreate.items payload)).
    { rewrite Esplit. apply in_or_app. left. now apply list_elem_of_In. }
    rewrite E, (menu_map_lookup s ids d); [discriminate|assumption..|].
    eapply oids_parsed_In; eauto.
    rewrite E. apply ObjectId_of_str. eauto using store_inv_menuitem.
Qed.

(** Soup is stored, "..aa" and "..bb" are not: the detail names "..aa". *)
Lemma create_order_missing_item_witness :
  store_inv cafe = true /\
  In (OrderItem.mk "0000000000000000000000bb" 1) (OrderCreate.items no_such_id) /\
  ObjectId_of "0000000000000000000000bb" = Some (ObjectId_numbered 187) /\
  (forall d, In d (menuitem cafe) -> _id d <> ObjectId_numbered 187) /\
  Forall (fun it => ObjectId_of (OrderItem.menu_item_id it) <> None)
    (OrderCreate.items no_such_id) /\
  Forall (fun it => Py.float_of_int (OrderItem.quantity it) <> None)
    (listed_prefix cafe (OrderCreate.items no_such_id)) /\
  exists it,
    List.find (fun it => negb (listed cafe it)) (OrderCreate.items no_such_id)
    = Some it /\
    POST_api_orders no_such_id (live "cafe" cafe)
    = (live "cafe" cafe,
       ErrorResponse 400
         ("Menu item not found: " +:+ OrderItem.menu_item_id it)).
Proof.
  assert (Hinv : store_inv cafe = true) by reflexivity.
  assert (Hin : In (OrderItem.mk "0000000000000000000000bb" 1)
                  (OrderCreate.items no_such_id)) by (simpl; tauto).
  assert (Ho : ObjectId_of "0000000000000000000000bb"
               = Some (ObjectId_numbered 187)) by reflexivity.
  assert (Hmiss : forall d, In d (menuitem cafe) -> _id d <> ObjectId_numbered 187).
  { intros d [<-|[<-|[<-|[]]]]; discriminate. }
  assert (Hwell : Forall (fun it => ObjectId_of (OrderItem.menu_item_id it) <> None)
                    (OrderCreate.items no_such_id)) by sample.
  assert (Hq : Forall (fun it => Py.float_of_int (OrderItem.quantity it) <> None)
                 (listed_prefix cafe (OrderCreate.items no_such_id))).
  { change (listed_prefix cafe (OrderCreate.items no_such_id))
      with [OrderItem.mk "000000000000000000000007" 1]. sample. }
  refine (conj Hinv (conj Hin (conj Ho (conj Hmiss (conj Hwell (conj Hq _)))))).
  exact (proj2 (create_order_missing_item "cafe" cafe no_such_id
                  (OrderItem.mk "0000000000000000000000bb" 1)
                  (ObjectId_numbered 187) Hinv Hin Ho Hmiss) Hwell Hq).
Defined.

(** C2 fails as stated: "..aa" is well formed and stored nowhere, yet the
    detail of the 400 does not name it, the request also holding "soup". *)
Lemma create_order_missing_item_counterexample :
  In (OrderItem.mk "0000000000000000000000aa" 2)
    (OrderCreate.items no_such_id_and_garbage) /\
  ObjectId_of "0000000000000000000000aa" = Some (ObjectId_numbered 170) /\
  (forall d, In d (menuitem cafe) -> _id d <> ObjectId_numbered 170) /\
  POST_api_orders no_such_id_and_garbage (live "cafe" cafe)
  = (live "cafe" cafe, ErrorResponse 400 "Invalid id").
Proof.
  split; [simpl; tauto|]. split; [reflexivity|]. split.
  - intros d [<-|[<-|[<-|[]]]]; discriminate.
  - vm_compute. reflexivity.
Qed.

(** ** Inventory upsert *)

Lemma update_first_by_id {T} i (set : T -> T) (l : list (Document ObjectId T)) :
  List.NoDup (List.map _id l) ->
  update_first (fun d => String.eqb (_id d) i) set l
  = List.map (fun d => if String.eqb (_id d) i then Doc (_id d) (set (fields d))
                       else d) l.
Proof.
  unfold ObjectId in *.
  induction l as [|d l IH]; intros Hn; [reflexivity|].
  inversion Hn as [|? ? Hni Hn']; subst. cbn [update_first List.map].
  destruct (String.eqb (_id d) i) eqn:E.
  - f_equal. apply String.eqb_eq in E. subst i.
    clear IH Hn Hn'. induction l as [|a l IH]; [reflexivity|].
    cbn [List.map]. destruct (String.eqb (_id a) (_id d)) eqn:Ea.
    + exfalso. apply Hni. left. now apply String.eqb_eq.
    + f_equal. apply IH. intros H. apply Hni. now right.
  - f_equal. now apply IH.
Qed.

Lemma filter_map_keep {A} (p : A -> bool) (g : A -> A) (l : list A) :
  (forall x, p (g x) = p x) ->
  List.filter p (List.map g l) = List.map g (List.filter p l).
Proof.
  intros H. induction l as [|a l IH]; [reflexivity|].
  cbn [List.map List.filter]. rewrite H.
  destruct (p a); cbn [List.map]; now rewrite IH.
Qed.

Lemma map_id_keep {T} (g : Document ObjectId T -> Document ObjectId T) l :
  (forall d, _id (g d) = _id d) -> List.map _id (List.map g l) = List.map _id l.
Proof.
  intros H. rewrite List.map_map. apply List.map_ext. exact H.
Qed.

Lemma ids_ok_mono {T} n n' (l : list (Document ObjectId T)) :
  (n <= n')%N -> ids_ok n l = true -> ids_ok n' l = true.
Proof.
  intros Hle H. apply ids_ok_spec in H as [H1 H2].
  apply ids_ok_intro; [|assumption].
  eapply Forall_impl; [exact H1|]. intros d [Hv Hd]. split; [exact Hv|].
  exact (N.lt_le_trans _ _ _ Hd Hle).
Qed.

Lemma ids_ok_snoc {T} n (l : list (Document ObjectId T)) data :
  (n < 2 ^ 96)%N ->
  ids_ok n l = true ->
  ids_ok (n + 1) (l ++ [Doc (ObjectId_numbered n) data]) = true.
Proof.
  intros Hn H. apply ids_ok_spec in H as [H1 H2]. apply ids_ok_intro.
  - apply Forall_app. split.
    + eapply Forall_impl; [exact H1|]. intros d [Hv Hd]. split; [exact Hv|].
      apply (N.lt_le_trans _ _ _ Hd). apply N.le_add_r.
    + constructor; [|constructor]. cbn [_id]. split.
      * apply ObjectId_numbered_valid.
      * rewrite ObjectId_value_numbered by exact Hn.
        apply N.lt_add_pos_r. reflexivity.
  - rewrite List.map_app. cbn [List.map].
    apply NoDup_ListNoDup, NoDup_app. repeat split.
    + now apply NoDup_ListNoDup.
    + intros x Hx Hx'. apply list_elem_of_In in Hx.
      apply list_elem_of_In in Hx'. destruct Hx' as [<-|[]].
      apply in_map_iff in Hx as [d [E Hd]].
      rewrite Forall_forall in H1. apply list_elem_of_In in Hd.
      destruct (H1 d Hd) as [_ Hlt]. cbn [_id] in E. rewrite E in Hlt.
      rewrite ObjectId_value_numbered in Hlt by exact Hn.
      exact (N.lt_irrefl _ Hlt).
    + apply NoDup_ListNoDup. repeat constructor. intros [].
Qed.

Lemma store_inv_parts s :
  store_inv s = true <->
  ids_ok (next_id s) (staff s) = true /\ ids_ok (next_id s) (menuitem s) = true
  /\ ids_ok (next_id s) (order s) = true
  /\ ids_ok (next_id s) (inventory s) = true /\ (next_id s <= 2 ^ 96)%N.
Proof.
  unfold store_inv. rewrite !andb_true_iff, N.leb_le. tauto.
Qed.

Lemma store_inv_update_inventory s l :
  store_inv s = true -> ids_ok (next_id s) l = true ->
  store_inv (with_docs inventory_c l s) = true.
Proof.
  rewrite !store_inv_parts. cbn. tauto.
Qed.

Lemma store_inv_inserted_inventory s data :
  wf_store s = true -> store_inv (inserted inventory_c data s) = true.
Proof.
  intros Hwf. pose proof (wf_store_room s Hwf) as Hroom.
  apply wf_store_inv in Hwf. apply N.ltb_lt in Hroom.
  rewrite store_inv_parts in *. cbn.
  destruct Hwf as (H1 & H2 & H3 & H4 & H5).
  assert (Hle : (next_id s <= next_id s + 1)%N) by apply N.le_add_r.
  unfold fresh_id.
  repeat split; eauto using ids_ok_mono, ids_ok_snoc.
  now apply N.le_succ_l in Hroom; rewrite <- N.add_1_r in Hroom.
Qed.

(** What one upsert does to a live store. *)
Lemma upsert_inventory_run n s item :
  POST_api_inventory item (live n s) =
    match List.find (has_sku (InventoryUpsert.sku item)) (inventory s) with
    | Some e =>
        (live n
           (with_docs inventory_c
              (update_first (fun d => String.eqb (_id d) (_id e))
                 (fun f => Inventory.mk (Inventory.sku f)
                             (InventoryUpsert.quantity item)
                             (InventoryUpsert.unit item)
                             (InventoryUpsert.reorder_level item))
                 (inventory s)) s),
         JSONResponse 201 (Created.mk (str (_id e))))
    | None =>
        if (next_id s <? 2 ^ 96)%N
        then (live n
                (inserted inventory_c
                   (Inventory.mk (InventoryUpsert.sku item)
                      (InventoryUpsert.quantity item)
                      (InventoryUpsert.unit item)
                      (InventoryUpsert.reorder_level item)) s),
              JSONResponse 201 (Created.mk (str (fresh_id s))))
        else (live n s, ErrorResponse 500 "Internal Server Error")
    end.
Proof.
  unfold POST_api_inventory, route, upsert_inventory, mbind, M_bind, bind,
    find_one, update_one, create_document, lift, on_store, live, mret, M_ret,
    ret, has_sku.
  cbn [docs inventory_c].
  destruct (List.find _ (inventory s)) as [e|]; [reflexivity|].
  cbn [Inventory.new]. destruct (next_id s <? 2 ^ 96)%N; reflexivity.
Qed.


Lemma find_in_filter {A} (p : A -> bool) (l : list A) e :
  List.find p l = Some e -> In e (List.filter p l).
Proof.
  intros H. apply find_some in H as [H1 H2]. apply filter_In. now split.
Qed.

Lemma store_inv_inventory s :
  store_inv s = true -> List.NoDup (List.map _id (inventory s)).
Proof.
  intros H. apply store_inv_parts in H as (_ & _ & _ & H & _).
  now apply ids_ok_spec in H.
Qed.

(** An update in place keeps the invariant and the identifiers. *)
Lemma store_inv_updated s i set :
  store_inv s = true ->
  store_inv
    (with_docs inventory_c
       (update_first (fun d => String.eqb (_id d) i) set (inventory s)) s) = true.
Proof.
  intros Hinv. apply store_inv_update_inventory; [assumption|].
  pose proof (store_inv_inventory s Hinv) as Hnd.
  rewrite update_first_by_id by assumption.
  apply store_inv_parts in Hinv as (_ & _ & _ & H & _).
  apply ids_ok_spec in H as [H1 H2]. apply ids_ok_intro.
  - apply Forall_forall. intros d Hd. apply list_elem_of_In in Hd.
    apply in_map_iff in Hd as [d0 [<- Hd0]].
    rewrite Forall_forall in H1. apply list_elem_of_In in Hd0.
    specialize (H1 d0 Hd0). cbn in H1. unfold ObjectId in *.
    now destruct (String.eqb (_id d0) i).
  - rewrite map_id_keep; [assumption|].
    intros d. unfold ObjectId in *. now destruct (String.eqb (_id d) i).
Qed.

Lemma one_record_upsert n i k item db :
  one_record n i k db -> one_record n i k (fst (POST_api_inventory item db)).
Proof.
  intros (s & f & -> & Hinv & Hone).
  rewrite upsert_inventory_run.
  destruct (List.find _ (inventory s)) as [e|] eqn:Efind.
  - cbn [fst].
    pose proof (store_inv_inventory s Hinv) as Hnd.
    set (upd := fun f0 : Inventory.t =>
                  Inventory.mk (Inventory.sku f0) (InventoryUpsert.quantity item)
                    (InventoryUpsert.unit item)
                    (InventoryUpsert.reorder_level item)).
    exists (with_docs inventory_c
              (update_first (fun d => String.eqb (_id d) (_id e)) upd (inventory s)) s),
           (if String.eqb i (_id e) then upd f else f).
    split; [reflexivity|]. split; [now apply store_inv_updated|].
    cbn [inventory with_docs inventory_c].
    rewrite update_first_by_id by assumption.
    rewrite filter_map_keep, Hone.
    + cbn [List.map _id fields]. destruct (String.eqb i (_id e)); reflexivity.
    + intros d. unfold has_sku, ObjectId in *.
      now destruct (String.eqb (_id d) (_id e)).
  - destruct (next_id s <? 2 ^ 96)%N eqn:Eroom; cbn [fst].
    + eexists _, f. split; [reflexivity|]. split.
      * apply store_inv_inserted_inventory. unfold wf_store.
        now rewrite Hinv, Eroom.
      * cbn [inventory inserted with_next_id with_docs inventory_c docs].
        rewrite List.filter_app, Hone. cbn [List.filter fields].
        assert (Hk : has_sku k
                       (Doc (fresh_id s)
                          (Inventory.mk (InventoryUpsert.sku item)
                             (InventoryUpsert.quantity item)
                             (InventoryUpsert.unit item)
                             (InventoryUpsert.reorder_level item))) = false).
        { unfold has_sku. cbn [fields Inventory.sku].
          destruct (String.eqb_spec (InventoryUpsert.sku item) k) as [E|];
            [|reflexivity].
          exfalso.
          assert (Hin : In (Doc i f) (List.filter (has_sku k) (inventory s)))
            by (rewrite Hone; now left).
          apply filter_In in Hin as [Hin Hs].
          pose proof (find_none _ _ Efind _ Hin) as Hn.
          rewrite E in Hn. congruence. }
        now rewrite Hk.
    + now exists s, f.
Qed.

Lemma one_record_upserts n i k items : forall db,
  one_record n i k db -> one_record n i k (upserts items db).
Proof.
  induction items as [|item items IH]; intros db H; [exact H|].
  cbn [upserts fold_left]. apply IH. now apply one_record_upsert.
Qed.

(** C3.  On a well-formed store without the sku, an upsert stores exactly
    one new record at the end of the collection and returns its identifier.
    After any further upserts, an upsert with the same sku returns that same
    identifier, keeps the identifiers of the collection as they are, and
    leaves exactly one record with the sku: the one created, with quantity,
    unit and reorder level overwritten. *)
Theorem upsert_inventory_by_sku n s item rest item' :
  wf_store s = true ->
  (forall d, In d (inventory s) ->
             Inventory.sku (fields d) <> InventoryUpsert.sku item) ->
  InventoryUpsert.sku item' = InventoryUpsert.sku item ->
  exists s1 s2 s3,
    POST_api_inventory item (live n s)
    = (live n s1, JSONResponse 201 (Created.mk (str (fresh_id s)))) /\
    inventory s1
    = inventory s ++
      [Doc (fresh_id s)
         (Inventory.mk (InventoryUpsert.sku item) (InventoryUpsert.quantity item)
            (InventoryUpsert.unit item) (InventoryUpsert.reorder_level item))] /\
    upserts rest (live n s1) = live n s2 /\
    POST_api_inventory item' (live n s2)
    = (live n s3, JSONResponse 201 (Created.mk (str (fresh_id s)))) /\
    List.map _id (inventory s3) = List.map _id (inventory s2) /\
    List.filter (has_sku (InventoryUpsert.sku item)) (inventory s3)
    = [Doc (fresh_id s)
         (Inventory.mk (InventoryUpsert.sku item) (InventoryUpsert.quantity item')
            (InventoryUpsert.unit item') (InventoryUpsert.reorder_level item'))].
Proof.
  intros Hwf Hnew Hsame.
  set (k := InventoryUpsert.sku item) in *.
  set (data := Inventory.mk k (InventoryUpsert.quantity item)
                 (InventoryUpsert.unit item) (InventoryUpsert.reorder_level item)).
  assert (Hnone : List.find (has_sku k) (inventory s) = None).
  { destruct (List.find (has_sku k) (inventory s)) as [e|] eqn:E; [|reflexivity].
    apply find_some in E as [Hin Hs]. unfold has_sku in Hs.
    apply String.eqb_eq in Hs. now apply Hnew in Hin. }
  assert (Hnofilter : List.filter (has_sku k) (inventory s) = []).
  { destruct (List.filter (has_sku k) (inventory s)) as [|e l] eqn:E;
      [reflexivity|].
    assert (Hin : In e (List.filter (has_sku k) (inventory s)))
      by (rewrite E; now left).
    apply filter_In in Hin as [Hin Hs].
    pose proof (find_none _ _ Hnone _ Hin). congruence. }
  assert (H1 : POST_api_inventory item (live n s)
               = (live n (inserted inventory_c data s),
                  JSONResponse 201 (Created.mk (str (fresh_id s))))).
  { rewrite upsert_inventory_run. fold k. rewrite Hnone.
    now rewrite wf_store_room. }
  assert (Hone : one_record n (fresh_id s) k (live n (inserted inventory_c data s))).
  { exists (inserted inventory_c data s), data.
    split; [reflexivity|]. split; [now apply store_inv_inserted_inventory|].
    cbn [inventory inserted with_next_id with_docs inventory_c docs].
    rewrite List.filter_app, Hnofilter. cbn [List.filter app].
    unfold has_sku, data. cbn [fields Inventory.sku].
    now rewrite String.eqb_refl. }
  destruct (one_record_upserts n (fresh_id s) k rest _ Hone)
    as (s2 & f & E2 & Hinv2 & Hone2).
  assert (Hfind : List.find (has_sku k) (inventory s2) = Some (Doc (fresh_id s) f)).
  { destruct (List.find (has_sku k) (inventory s2)) as [e|] eqn:E.
    - apply find_in_filter in E. rewrite Hone2 in E.
      destruct E as [<-|[]]. reflexivity.
    - assert (Hin : In (Doc (fresh_id s) f) (List.filter (has_sku k) (inventory s2)))
        by (rewrite Hone2; now left).
      apply filter_In in Hin as [Hin Hs].
      pose proof (find_none _ _ E _ Hin). congruence. }
  assert (Hf : Inventory.sku f = k).
  { apply find_some in Hfind as [_ Hs]. unfold has_sku in Hs.
    now apply String.eqb_eq in Hs. }
  pose proof (store_inv_inventory s2 Hinv2) as Hnd.
  eexists (inserted inventory_c data s), s2, _.
  split; [exact H1|]. split; [reflexivity|]. split; [exact E2|].
  split; [|split].
  - rewrite upsert_inventory_run, Hsame. fold k. rewrite Hfind. reflexivity.
  - cbn [inventory with_docs inventory_c _id].
    rewrite update_first_by_id by assumption.
    apply map_id_keep. intros d. unfold ObjectId in *.
    now destruct (String.eqb (_id d) (fresh_id s)).
  - cbn [inventory with_docs inventory_c _id].
    rewrite update_first_by_id by assumption.
    rewrite filter_map_keep, Hone2.
    + cbn [List.map _id fields]. rewrite String.eqb_refl, Hf. reflexivity.
    + intros d. unfold has_sku, ObjectId in *.
      now destruct (String.eqb (_id d) (fresh_id s)).
Qed.

(** Milk is new; rice is added and milk touched again; then milk is set to
    9.5 and the answer is still the identifier of the first upsert. *)
Lemma upsert_inventory_by_sku_witness :
  wf_store cafe = true /\
  (forall d, In d (inventory cafe) -> Inventory.sku (fields d) <> "milk") /\
  exists s1 s2 s3,
    POST_api_inventory milk_4 (live "cafe" cafe)
    = (live "cafe" s1, JSONResponse 201 (Created.mk "00000000000000000000000b")) /\
    inventory s1 = [Doc (ObjectId_numbered 11) (Inventory.mk "milk" 4 "L" None)] /\
    upserts [rice_20; milk_4; rice_20] (live "cafe" s1) = live "cafe" s2 /\
    POST_api_inventory milk_9 (live "cafe" s2)
    = (live "cafe" s3, JSONResponse 201 (Created.mk "00000000000000000000000b")) /\
    List.map _id (inventory s3) = List.map _id (inventory s2) /\
    List.filter (has_sku "milk") (inventory s3)
    = [Doc (ObjectId_numbered 11) (Inventory.mk "milk" 9.5 "L" (Some 2%float))].
Proof.
  assert (Hwf : wf_store cafe = true) by reflexivity.
  assert (Hnew : forall d, In d (inventory cafe) ->
                           Inventory.sku (fields d) <> "milk")
    by (intros d []).
  refine (conj Hwf (conj Hnew _)).
  exact (upsert_inventory_by_sku "cafe" cafe milk_4 [rice_20; milk_4; rice_20]
           milk_9 Hwf Hnew eq_refl).
Defined.

(** ** Staff login *)

Lemma login_run n s req :
  POST_api_auth_login req (live n s) =
    match List.find (pin_matches (StaffLogin.pin req)) (staff s) with
    | Some d =>
        (live n s,
         JSONResponse 200
           (LoggedIn.mk (str (_id d)) (Staff.name (fields d))
              (Staff.role (fields d))))
    | None => (live n s, ErrorResponse 401 "Invalid PIN")
    end.
Proof.
  unfold POST_api_auth_login, route, login, mbind, M_bind, bind, find_one,
    on_store, live, raise, mret, M_ret, ret.
  cbn [docs staff_c]. fold (pin_matches (StaffLogin.pin req)).
  now destruct (List.find _ (staff s)).
Qed.

Lemma pin_matches_spec pin d :
  pin_matches pin d = true <->
  Staff.pin (fields d) = pin /\ Staff.is_active (fields d) = true.
Proof.
  unfold pin_matches. rewrite andb_true_iff, String.eqb_eq, Bool.eqb_true_iff.
  reflexivity.
Qed.

(** C5.  When some stored staff record has the submitted pin and is active,
    the login is answered 200 with the identifier, name and role of such a
    record (the first in store order); when no stored record has the pin and
    is active, pins of inactive records included, it is answered 401 with
    the detail "Invalid PIN" and nothing else.  The store is left as it
    was. *)
Theorem login_by_pin n s req :
  ((exists d, In d (staff s) /\
              Staff.pin (fields d) = StaffLogin.pin req /\
              Staff.is_active (fields d) = true) ->
   exists d, In d (staff s) /\
             Staff.pin (fields d) = StaffLogin.pin req /\
             Staff.is_active (fields d) = true /\
             POST_api_auth_login req (live n s)
             = (live n s,
                JSONResponse 200
                  (LoggedIn.mk (str (_id d)) (Staff.name (fields d))
                     (Staff.role (fields d))))) /\
  ((forall d, In d (staff s) ->
              Staff.pin (fields d) = StaffLogin.pin req ->
              Staff.is_active (fields d) = false) ->
   POST_api_auth_login req (live n s)
   = (live n s, ErrorResponse 401 "Invalid PIN")).
Proof.
  rewrite login_run. split.
  - intros (d & Hin & Hpin & Hact).
    destruct (List.find _ (staff s)) as [d'|] eqn:E.
    + apply find_some in E as [Hin' Hm]. apply pin_matches_spec in Hm as [? ?].
      now exists d'.
    + pose proof (find_none _ _ E d Hin) as Hn.
      assert (pin_matches (StaffLogin.pin req) d = true)
        by now apply pin_matches_spec.
      congruence.
  - intros Hno.
    destruct (List.find _ (staff s)) as [d'|] eqn:E; [|reflexivity].
    apply find_some in E as [Hin' Hm]. apply pin_matches_spec in Hm as [Hp Ha].
    rewrite (Hno d' Hin' Hp) in Ha. discriminate.
Qed.

(** Ana is active with pin 1234; 9999 is the pin of Bob, who is not. *)
Lemma login_by_pin_witness :
  POST_api_auth_login (StaffLogin.mk "1234") (live "cafe" cafe)
  = (live "cafe" cafe,
     JSONResponse 200 (LoggedIn.mk "000000000000000000000001" "Ana" "manager")) /\
  POST_api_auth_login (StaffLogin.mk "9999") (live "cafe" cafe)
  = (live "cafe" cafe, ErrorResponse 401 "Invalid PIN").
Proof.
  split.
  - destruct (proj1 (login_by_pin "cafe" cafe (StaffLogin.mk "1234")))
      as (d & Hin & Hpin & Hact & E).
    + exists ana. repeat split. simpl. tauto.
    + rewrite E. destruct Hin as [<-|[<-|[]]]; [reflexivity|discriminate].
  - apply (proj2 (login_by_pin "cafe" cafe (StaffLogin.mk "9999"))).
    intros d [<-|[<-|[]]]; [discriminate|reflexivity].
Defined.

(** ** Menu *)

Lemma json_ok_render {T} `{Jsonable T} (l : list (Document ObjectId T)) :
  json_ok (render l) = forallb (fun d => json_ok (fields d)) l.
Proof.
  unfold render. induction l as [|d l IH]; [reflexivity|].
  cbn [List.map forallb]. rewrite <- IH. reflexivity.
Qed.

(** A listing: the whole collection, rendered, when it can be written as
    JSON, and a 500 when it cannot. *)
Lemma listing_run {T} `{Jsonable T} (c : Collection T) n s :
  route 200 (docs ← get_documents c; mret (render docs)) (live n s)
  = if json_ok (render (docs c s))
    then (live n s, JSONResponse 200 (render (docs c s)))
    else (live n s, ErrorResponse 500 "Internal Server Error").
Proof.
  unfold route, get_documents, find, mbind, M_bind, bind, on_store, live, mret,
    M_ret, ret.
  assert (E : List.filter (fun _ => true) (docs c s) = docs c s).
  { induction (docs c s) as [|d l IH]; [reflexivity|].
    cbn [List.filter]. now rewrite IH. }
  now rewrite E.
Qed.

Lemma render_snoc {T} (l : list (Document ObjectId T)) d :
  render (l ++ [d]) = render l ++ [Doc (str (_id d)) (fields d)].
Proof. unfold render. now rewrite List.map_app. Qed.

Lemma create_menu_item_run n s payload :
  POST_api_menu payload (live n s) =
    if (0 <=? MenuCreate.price payload)%float
    then if (next_id s <? 2 ^ 96)%N
         then (live n
                 (inserted menuitem_c
                    (Menuitem.mk (MenuCreate.title payload)
                       (MenuCreate.description payload)
                       (MenuCreate.price payload) (MenuCreate.category payload)
                       (MenuCreate.available payload)) s),
               JSONResponse 201 (Created.mk (str (fresh_id s))))
         else (live n s, ErrorResponse 500 "Internal Server Error")
    else (live n s, ErrorResponse 500 "Internal Server Error").
Proof.
  unfold POST_api_menu, route, create_menu_item, mbind, M_bind, bind, lift,
    create_document, on_store, live, mret, M_ret, ret, Menuitem.new.
  destruct (0 <=? MenuCreate.price payload)%float; [|reflexivity].
  now destruct (next_id s <? 2 ^ 96)%N.
Qed.

Lemma menu_listing_after n s item :
  prices_finite s = true -> Py.isfinite (Menuitem.price item) = true ->
  GET_api_menu (live n (inserted menuitem_c item s))
  = (live n (inserted menuitem_c item s),
     JSONResponse 200 (render (menuitem s) ++ [Doc (str (fresh_id s)) item])).
Proof.
  intros Hs Hp.
  change (GET_api_menu (live n (inserted menuitem_c item s)))
    with (route 200 (docs ← get_documents menuitem_c; mret (render docs))
            (live n (inserted menuitem_c item s))).
  rewrite listing_run.
  cbn [docs menuitem_c inserted with_next_id with_docs menuitem].
  rewrite json_ok_render, forallb_app. cbn [forallb fields].
  unfold prices_finite in Hs. unfold json_ok at 1 2, Menuitem_json.
  rewrite Hs, Hp. cbn [andb]. now rewrite render_snoc.
Qed.

(** C8 (as amended).  On a well-formed store whose menu prices are finite,
    creating a menu item with a finite price that passes [ge=0] is answered
    201 with the new identifier, and the listing of the menu that follows is
    answered 200 with a record of that identifier in string form carrying
    the title and exactly the price (and the other fields) of the request. *)
Theorem menu_create_then_list n s payload :
  wf_store s = true ->
  prices_finite s = true ->
  (0 <=? MenuCreate.price payload)%float = true ->
  Py.isfinite (MenuCreate.price payload) = true ->
  exists s' listing,
    POST_api_menu payload (live n s)
    = (live n s', JSONResponse 201 (Created.mk (str (fresh_id s)))) /\
    GET_api_menu (live n s') = (live n s', JSONResponse 200 listing) /\
    In (Doc (str (fresh_id s))
          (Menuitem.mk (MenuCreate.title payload) (MenuCreate.description payload)
             (MenuCreate.price payload) (MenuCreate.category payload)
             (MenuCreate.available payload))) listing.
Proof.
  intros Hwf Hs Hprice Hfin.
  set (item := Menuitem.mk (MenuCreate.title payload)
                 (MenuCreate.description payload) (MenuCreate.price payload)
                 (MenuCreate.category payload) (MenuCreate.available payload)).
  exists (inserted menuitem_c item s),
         (render (menuitem s) ++ [Doc (str (fresh_id s)) item]).
  split; [|split].
  - rewrite create_menu_item_run, Hprice, wf_store_room by exact Hwf.
    reflexivity.
  - now apply menu_listing_after.
  - apply in_or_app. right. now left.
Qed.

Lemma menu_create_then_list_witness :
  wf_store cafe = true /\
  prices_finite cafe = true /\
  (0 <=? MenuCreate.price cake)%float = true /\
  Py.isfinite (MenuCreate.price cake) = true /\
  exists s' listing,
    POST_api_menu cake (live "cafe" cafe)
    = (live "cafe" s', JSONResponse 201 (Created.mk "00000000000000000000000b")) /\
    GET_api_menu (live "cafe" s') = (live "cafe" s', JSONResponse 200 listing) /\
    In (Doc "00000000000000000000000b"
          (Menuitem.mk "Cake" (Some "carrot") 3.75 None true)) listing.
Proof.
  assert (Hwf : wf_store cafe = true) by reflexivity.
  assert (Hs : prices_finite cafe = true) by reflexivity.
  assert (Hp : (0 <=? MenuCreate.price cake)%float = true) by reflexivity.
  assert (Hf : Py.isfinite (MenuCreate.price cake) = true) by reflexivity.
  refine (conj Hwf (conj Hs (conj Hp (conj Hf _)))).
  exact (menu_create_then_list "cafe" cafe cake Hwf Hs Hp Hf).
Defined.

(** C8 fails as stated: a bar of gold at an infinite price passes [ge=0]
    and is created with a 201; the listing that follows is answered 500,
    the price not being writable as JSON.  From then on the listing after
    any creation is answered 500: a cake at 3.75 is created with a 201 and
    not listed. *)
Lemma menu_create_then_list_counterexample :
  (0 <=? MenuCreate.price gold_bar)%float = true /\
  snd (POST_api_menu gold_bar (live "cafe" cafe))
  = JSONResponse 201 (Created.mk "00000000000000000000000b") /\
  snd (GET_api_menu (fst (POST_api_menu gold_bar (live "cafe" cafe))))
  = ErrorResponse 500 "Internal Server Error" /\
  snd (POST_api_menu cake (fst (POST_api_menu gold_bar (live "cafe" cafe))))
  = JSONResponse 201 (Created.mk "00000000000000000000000c") /\
  snd (GET_api_menu
         (fst (POST_api_menu cake
                 (fst (POST_api_menu gold_bar (live "cafe" cafe))))))
  = ErrorResponse 500 "Internal Server Error".
Proof. repeat split; vm_compute; reflexivity. Qed.

(** ** Diagnostics *)

(** C9.  Whatever the store is (not configured, down, or up) and whether or
    not DATABASE_URL is set, the diagnostics request is answered 200 and the
    store is left as it was; the condition of the store, the driver's error
    message cut to 80 characters included, is text in the body. *)
Theorem test_database_always_200 DATABASE_URL db :
  exists status,
    GET_test DATABASE_URL db = (db, JSONResponse 200 status) /\
    Status.backend status = "✅ Running" /\
    Status.database status
    = match db with
      | None => "⚠️ Available but not initialized"
      | Some h =>
          match server h with
          | Down e => "⚠️ Connected but Error: " +:+ Py.take 80 e
          | Up _ => "✅ Connected & Working"
          end
      end /\
    Status.connection_status status
    = (if db is None then "Not Connected" else "Connected") /\
    (if db is Some (mkDatabase _ (Up _)) then True
     else Status.collections status = []).
Proof.
  unfold GET_test, route, test_database, test_database_try.
  destruct db as [[nm [e|s]]|]; cbn -[String.append Py.take];
    eexists; repeat split.
Qed.

(** ** Schema constraints *)

Lemma negative_fails_ge0 (p : float) :
  (p <? 0)%float = true -> (0 <=? p)%float = false.
Proof.
  rewrite ltb_spec, leb_spec. unfold SFltb, SFleb.
  change (Prim2SF 0) with (S754_zero false).
  destruct (Prim2SF p) as [[|]|[|]| |[|] m e]; cbn; congruence.
Qed.

(** C4 (as amended).  A menu item with a negative price and a staff record
    with a pin shorter than 4 or longer than 8 characters are accepted by
    the request models, which carry no such constraint, and refused by the
    schema constructor inside the handler: the request is answered 500, not
    422, and the store is left as it was, whatever its condition. *)
Theorem schema_violation_is_500 db :
  (forall payload,
     (MenuCreate.price payload <? 0)%float = true ->
     POST_api_menu payload db = (db, ErrorResponse 500 "Internal Server Error"))
  /\
  (forall s,
     (Py.len (StaffCreate.pin s) < 4 \/
      8 < Py.len (StaffCreate.pin s))%nat ->
     POST_api_staff s db = (db, ErrorResponse 500 "Internal Server Error")).
Proof.
  split.
  - intros payload Hneg.
    unfold POST_api_menu, route, create_menu_item, mbind, M_bind, bind, lift,
      Menuitem.new.
    now rewrite (negative_fails_ge0 _ Hneg).
  - intros s Hlen.
    unfold POST_api_staff, route, create_staff, mbind, M_bind, bind, lift,
      Staff.new.
    assert (E : (4 <=? Py.len (StaffCreate.pin s))%nat
                && (Py.len (StaffCreate.pin s) <=? 8)%nat = false).
    { apply andb_false_iff.
      destruct Hlen; [left; apply Nat.leb_gt|right; apply Nat.leb_gt]; lia. }
    now rewrite E.
Qed.

Lemma schema_violation_is_500_witness :
  (MenuCreate.price free_lunch <? 0)%float = true /\
  (Py.len (StaffCreate.pin three_letters) < 4)%nat /\
  POST_api_menu free_lunch (live "cafe" cafe)
  = (live "cafe" cafe, ErrorResponse 500 "Internal Server Error") /\
  POST_api_staff three_letters (live "cafe" cafe)
  = (live "cafe" cafe, ErrorResponse 500 "Internal Server Error").
Proof.
  assert (Hneg : (MenuCreate.price free_lunch <? 0)%float = true) by reflexivity.
  assert (Hlen : (Py.len (StaffCreate.pin three_letters) < 4)%nat)
    by (simpl; lia).
  refine (conj Hneg (conj Hlen (conj _ _))).
  - exact (proj1 (schema_violation_is_500 (live "cafe" cafe)) free_lunch Hneg).
  - exact (proj2 (schema_violation_is_500 (live "cafe" cafe)) three_letters
             (or_introl Hlen)).
Defined.

(** C4 fails as stated: a lunch priced -1 is not answered 422. *)
Lemma schema_violation_is_500_counterexample :
  (MenuCreate.price free_lunch <? 0)%float = true /\
  status_code_of (snd (POST_api_menu free_lunch (live "cafe" cafe))) = 500 /\
  status_code_of (snd (POST_api_menu free_lunch (live "cafe" cafe))) <> 422 /\
  status_code_of (snd (POST_api_staff short_pin (live "cafe" cafe))) = 500.
Proof.
  repeat split; try (vm_compute; reflexivity).
  vm_compute. discriminate.
Qed.

(** ** Every request keeps the store well formed *)

Ltac inserted_keeps_inv :=
  let Hinv := fresh "Hinv" in
  let Hroom := fresh "Hroom" in
  intros Hinv Hroom; apply N.ltb_lt in Hroom;
  rewrite store_inv_parts in *;
  destruct Hinv as (? & ? & ? & ? & ?);
  match goal with
  | H : (next_id ?s <= _)%N |- _ =>
      assert (next_id s <= next_id s + 1)%N by apply N.le_add_r
  end;
  cbn; unfold fresh_id; repeat split; eauto using ids_ok_mono, ids_ok_snoc;
  rewrite N.add_1_r; now apply N.le_succ_l.

Lemma store_inv_inserted_staff s data :
  store_inv s = true -> (next_id s <? 2 ^ 96)%N = true ->
  store_inv (inserted staff_c data s) = true.
Proof. inserted_keeps_inv. Qed.

Lemma store_inv_inserted_menuitem s data :
  store_inv s = true -> (next_id s <? 2 ^ 96)%N = true ->
  store_inv (inserted menuitem_c data s) = true.
Proof. inserted_keeps_inv. Qed.

Lemma store_inv_inserted_order s data :
  store_inv s = true -> (next_id s <? 2 ^ 96)%N = true ->
  store_inv (inserted order_c data s) = true.
Proof. inserted_keeps_inv. Qed.

Lemma api_step_inv s s' :
  api_step s s' -> store_inv s = true -> store_inv s' = true.
Proof.
  intros Hstep Hinv. destruct Hstep.
  - assumption.
  - now apply store_inv_inserted_staff.
  - now apply store_inv_inserted_menuitem.
  - now apply store_inv_inserted_order.
  - apply store_inv_inserted_inventory. unfold wf_store, room in *.
    now apply andb_true_iff.
  - now apply store_inv_updated.
Qed.

Lemma route_fst {A} `{Jsonable A} (c : Z) (handler : M A) db :
  fst (route c handler db) = fst (handler db).
Proof.
  unfold route. destruct (handler db) as [db' [e|v]]; [now destruct e|].
  now destruct (json_ok v).
Qed.

Lemma db_after_step r n s :
  exists s', db_after r (live n s) = live n s' /\ api_step s s'.
Proof.
  destruct r as [|url| |p|p| | |i|st|l]; cbn [db_after].
  - exists s. split; [reflexivity|constructor].
  - exists s. split; [reflexivity|constructor].
  - exists s. split; [apply route_fst|constructor].
  - rewrite create_menu_item_run.
    destruct (0 <=? MenuCreate.price p)%float eqn:Eprice;
      [|exists s; split; [reflexivity|constructor]].
    destruct (next_id s <? 2 ^ 96)%N eqn:Eroom;
      [|exists s; split; [reflexivity|constructor]].
    eexists. split; [reflexivity|]. now apply step_menuitem.
  - unfold POST_api_orders. rewrite route_fst.
    destruct (oids (OrderCreate.items p)) as [e|ids] eqn:Eids.
    + exists s. split; [|constructor].
      unfold create_order, mbind, M_bind, bind, lift. now rewrite Eids.
    + rewrite (create_order_run n s p ids Eids).
      destruct (price_items _ _ _ _) as [e|[subtotal item_lines]];
        [exists s; split; [reflexivity|constructor]|].
      cbn zeta.
      destruct (Order_ok (Py.round subtotal 2)
                  (Py.round (subtotal * 0.07) 2)
                  (Py.round (subtotal + Py.round (subtotal * 0.07) 2) 2))
        eqn:Eok.
      * rewrite Order_new_ok by exact Eok.
        destruct (next_id s <? 2 ^ 96)%N eqn:Eroom;
          [|exists s; split; [reflexivity|constructor]].
        eexists. split; [reflexivity|]. now apply step_order.
      * destruct (Order_new_rejects (OrderCreate.staff_id p) item_lines _ _ _
                    "open" (OrderCreate.note p) Eok) as [field ->].
        exists s. split; [reflexivity|constructor].
  - exists s. split; [apply route_fst|constructor].
  - exists s. split; [apply route_fst|constructor].
  - rewrite upsert_inventory_run.
    destruct (List.find _ (inventory s)) as [e|] eqn:Efind.
    + eexists. split; [reflexivity|]. eapply step_inventory_set. exact Efind.
    + destruct (next_id s <? 2 ^ 96)%N eqn:Eroom;
        [|exists s; split; [reflexivity|constructor]].
      eexists. split; [reflexivity|]. now apply step_inventory_new.
  - unfold POST_api_staff, route, create_staff, mbind, M_bind, bind, lift,
      create_document, on_store, live, mret, M_ret, ret, Staff.new.
    destruct ((4 <=? Py.len (StaffCreate.pin st))%nat
              && (Py.len (StaffCreate.pin st) <=? 8)%nat) eqn:Epin;
      [|exists s; split; [reflexivity|constructor]].
    destruct (next_id s <? 2 ^ 96)%N eqn:Eroom;
      [|exists s; split; [reflexivity|constructor]].
    eexists. split; [reflexivity|]. now apply step_staff.
  - exists s. split; [|constructor]. rewrite login_run.
    now destruct (List.find _ (staff s)).
Qed.

(** Induction over the stores the API builds. *)
Lemma reachable_ind (P : Store -> Prop) :
  P empty_store ->
  (forall s s', api_step s s' -> P s -> P s') ->
  forall n s, reachable n s -> P s.
Proof.
  intros H0 Hstep n s [rs Hrs].
  assert (H : forall s0, P s0 ->
            forall s1, fold_left (fun db r => db_after r db) rs (live n s0)
                       = live n s1 -> P s1).
  { clear Hrs. induction rs as [|r rs IH]; intros s0 HP s1 E.
    - cbn in E. injection E as <-. assumption.
    - cbn [fold_left] in E.
      destruct (db_after_step r n s0) as [s' [E' Hs']].
      rewrite E' in E. eapply IH; [|exact E]. eauto. }
  eauto.
Qed.

(** ** What holds of every store the API builds *)

(** X1: identifiers.  In a store built by requests from the empty one, no
    identifier occurs twice in a collection and every identifier is below
    the counter, which has not passed 2^96. *)
Theorem reachable_ids_unique n s :
  reachable n s -> store_inv s = true.
Proof.
  apply (reachable_ind (fun s => store_inv s = true)); [reflexivity|].
  intros s0 s' Hstep Hinv. revert Hstep Hinv. apply api_step_inv.
Qed.

Lemma reachable_ids_unique_witness :
  reachable "cafe" opened /\ store_inv opened = true.
Proof.
  assert (Hr : reachable "cafe" opened) by (exists opening; reflexivity).
  exact (conj Hr (reachable_ids_unique "cafe" opened Hr)).
Defined.

Lemma update_first_ids {T} q (set : T -> T) (l : list (Document ObjectId T)) :
  List.map _id (update_first q set l) = List.map _id l.
Proof.
  induction l as [|d l IH]; [reflexivity|].
  cbn [update_first]. destruct (q d); cbn [List.map _id]; now rewrite ?IH.
Qed.

Lemma update_first_skus q quantity unit reorder_level l :
  List.map (fun d => Inventory.sku (fields d))
    (update_first q
       (fun f => Inventory.mk (Inventory.sku f) quantity unit reorder_level) l)
  = List.map (fun d => Inventory.sku (fields d)) l.
Proof.
  induction l as [|d l IH]; [reflexivity|].
  cbn [update_first]. destruct (q d); cbn [List.map fields Inventory.sku];
    now rewrite ?IH.
Qed.

Lemma find_sku_none k l :
  List.find (has_sku k) l = None ->
  ~ In k (List.map (fun d => Inventory.sku (fields d)) l).
Proof.
  intros Hnone Hin. apply in_map_iff in Hin as [d [E Hd]].
  pose proof (find_none _ _ Hnone d Hd) as Hf. unfold has_sku in Hf.
  rewrite E, String.eqb_refl in Hf. discriminate.
Qed.

(** X2: skus.  In a store built by requests from the empty one, no two
    inventory records carry the same sku. *)
Theorem reachable_skus_unique n s :
  reachable n s -> List.NoDup (skus s).
Proof.
  apply (reachable_ind (fun s => List.NoDup (skus s))); [constructor|].
  intros s0 s' Hstep Hnd. unfold skus in *.
  destruct Hstep; try assumption.
  - cbn [inventory inserted with_next_id with_docs inventory_c docs].
    rewrite List.map_app. cbn [List.map fields].
    apply NoDup_ListNoDup, NoDup_app. repeat split.
    + now apply NoDup_ListNoDup.
    + intros k Hk Hk'. apply list_elem_of_In in Hk.
      apply list_elem_of_In in Hk'. destruct Hk' as [<-|[]].
      eapply find_sku_none; eauto.
    + apply NoDup_ListNoDup. repeat constructor. intros [].
  - cbn [inventory with_docs inventory_c]. now rewrite update_first_skus.
Qed.

Lemma reachable_skus_unique_witness :
  reachable "cafe" opened /\ List.NoDup (skus opened).
Proof.
  assert (Hr : reachable "cafe" opened) by (exists opening; reflexivity).
  exact (conj Hr (reachable_skus_unique "cafe" opened Hr)).
Defined.

(** X3: records.  In a store built by requests from the empty one, every
    staff record is active with a pin of 4 to 8 characters, every menu item
    has a price that passes [ge=0] (so no nan and nothing negative), and
    every order is "open" with subtotal, tax and total passing [ge=0]. *)
Theorem reachable_records_valid n s :
  reachable n s ->
  Forall staff_valid (staff s) /\ Forall menuitem_valid (menuitem s)
  /\ Forall order_valid (order s).
Proof.
  apply (reachable_ind (fun s =>
    Forall staff_valid (staff s) /\ Forall menuitem_valid (menuitem s)
    /\ Forall order_valid (order s))); [repeat constructor|].
  intros s0 s' Hstep (Hs & Hm & Ho).
  destruct Hstep as [|name role pin Hpin _|item Hprice _|o Hok Hopen _| |];
    cbn [staff menuitem order inserted with_next_id with_docs docs
         staff_c menuitem_c order_c inventory_c];
    repeat split; try assumption.
  - apply Forall_app. split; [assumption|].
    constructor; [|constructor]. unfold staff_valid. cbn [fields Staff.pin
      Staff.is_active].
    apply andb_true_iff in Hpin as [H4 H8].
    apply Nat.leb_le in H4, H8. auto.
  - apply Forall_app. split; [assumption|].
    constructor; [exact Hprice|constructor].
  - apply Forall_app. split; [assumption|].
    constructor; [now split|constructor].
Qed.

Lemma reachable_records_valid_witness :
  reachable "cafe" opened /\
  Forall staff_valid (staff opened) /\ Forall menuitem_valid (menuitem opened)
  /\ Forall order_valid (order opened).
Proof.
  assert (Hr : reachable "cafe" opened) by (exists opening; reflexivity).
  exact (conj Hr (reachable_records_valid "cafe" opened Hr)).
Defined.

(** X4: nothing is deleted.  Whatever the request, the staff, menu and order
    collections of a live store are afterwards what they were, possibly with
    records added at the end, and the inventory keeps its identifiers and
    skus in place, possibly with one added at the end. *)
Theorem requests_delete_nothing r n s :
  exists s',
    db_after r (live n s) = live n s' /\
    (exists k, staff s' = staff s ++ k) /\
    (exists k, menuitem s' = menuitem s ++ k) /\
    (exists k, order s' = order s ++ k) /\
    (exists k, List.map _id (inventory s') = List.map _id (inventory s) ++ k) /\
    (exists k, skus s' = skus s ++ k).
Proof.
  destruct (db_after_step r n s) as [s' [E Hstep]].
  exists s'. split; [exact E|]. unfold skus.
  destruct Hstep;
    cbn [staff menuitem order inventory inserted with_next_id with_docs docs
         staff_c menuitem_c order_c inventory_c];
    rewrite ?List.map_app, ?update_first_ids, ?update_first_skus;
    repeat split; first [now exists [] ; rewrite app_nil_r | now eexists].
Qed.

(** ** Identifiers, both ways *)

Lemma length_hexlify b :
  String.length (Py.hexlify b) = (2 * String.length b)%nat.
Proof.
  induction b as [|c b IH]; [reflexivity|].
  cbn [Py.hexlify String.length]. rewrite IH. lia.
Qed.

Lemma hex_value_plain c d : Py.hex_value c = Some d -> Py.continues c = false.
Proof.
  unfold Py.hex_value, Py.continues. cbn zeta.
  repeat match goal with
    | |- context [if ?b then _ else _] => destruct b eqn:?
    end; intros E; try discriminate;
    repeat match goal with
      | H : _ && _ = true |- _ => apply andb_true_iff in H as [? ?]
      | H : (_ <=? _)%N = true |- _ => apply N.leb_le in H
      end;
    apply andb_false_iff; left; apply N.leb_gt; lia.
Qed.

Lemma isspace_plain c : Py.isspace c = true -> Py.continues c = false.
Proof.
  unfold Py.isspace, Py.continues. cbn zeta. intros H.
  apply andb_false_iff. left. apply N.leb_gt.
  apply orb_true_iff in H as [H|H].
  - apply andb_true_iff in H as [_ H]. apply N.leb_le in H. lia.
  - apply N.eqb_eq in H. lia.
Qed.

(** What [bytes.fromhex] reads is plain ASCII, and every byte read took two
    of its characters. *)
Lemma fromhex_length k : forall s b,
  (String.length s <= k)%nat -> Py.fromhex s = Some b ->
  Py.len s = String.length s /\ (2 * String.length b <= String.length s)%nat.
Proof.
  induction k as [|k IH]; intros s b Hk E.
  - destruct s; [|cbn in Hk; lia]. cbn in E. injection E as <-. now split.
  - destruct s as [|c s]; [cbn in E; injection E as <-; now split|].
    cbn [Py.fromhex] in E. cbn [String.length] in Hk.
    destruct (Py.isspace c) eqn:Esp.
    + destruct (IH s b ltac:(lia) E) as [Hl Hb].
      cbn [Py.len String.length]. rewrite (isspace_plain c Esp). lia.
    + destruct (Py.hex_value c) as [top|] eqn:Etop; [|discriminate].
      destruct s as [|c' s]; [discriminate|].
      destruct (Py.hex_value c') as [bot|] eqn:Ebot; [|discriminate].
      destruct (Py.fromhex s) as [b'|] eqn:Eb; [|discriminate].
      injection E as <-. cbn [String.length] in Hk.
      destruct (IH s b' ltac:(lia) Eb) as [Hl Hb].
      cbn [Py.len String.length].
      rewrite (hex_value_plain c top Etop), (hex_value_plain c' bot Ebot).
      lia.
Qed.

(** X5: [oid] after [str].  The string form of a twelve-byte identifier has
    24 positions and [oid] reads it back to the same identifier. *)
Theorem oid_of_str o :
  valid_id o -> String.length (str o) = 24%nat /\ oid (str o) = inr o.
Proof.
  intros Hv. split.
  - unfold str. rewrite length_hexlify. unfold valid_id in Hv.
    now rewrite Hv.
  - unfold oid. now rewrite ObjectId_of_str.
Qed.

Lemma oid_of_str_witness :
  valid_id (ObjectId_numbered 187) /\
  String.length (str (ObjectId_numbered 187)) = 24%nat /\
  oid (str (ObjectId_numbered 187)) = inr (ObjectId_numbered 187).
Proof.
  assert (Hv : valid_id (ObjectId_numbered 187)) by reflexivity.
  exact (conj Hv (oid_of_str (ObjectId_numbered 187) Hv)).
Defined.

(** X6: what [oid] accepts.  A string [oid] accepts has 24 characters, all
    of them plain ASCII, and the identifier read has at most twelve bytes.
    It has fewer when the string held whitespace, which [bytes.fromhex]
    skips; the string form of such an identifier is shorter than 24 and
    [oid] refuses it, while the string form of a twelve-byte identifier,
    which may differ from the string by the case of its letters, is read as
    the same identifier. *)
Theorem oid_accepts id_str o :
  oid id_str = inr o ->
  Py.len id_str = 24%nat /\ String.length id_str = 24%nat /\
  (String.length o <= 12)%nat /\
  oid (str o) = if Nat.eqb (String.length o) 12 then inr o
                else inl (HTTPException 400 "Invalid id").
Proof.
  unfold oid at 1. unfold ObjectId_of. intros E.
  destruct (Nat.eqb (Py.len id_str) 24) eqn:El; [|discriminate].
  apply Nat.eqb_eq in El.
  destruct (Py.fromhex id_str) as [b|] eqn:Ep; [|discriminate].
  injection E as <-.
  destruct (fromhex_length _ id_str b (le_n _) Ep) as [Hl Hb].
  rewrite Hl in El. rewrite El in Hb.
  repeat split; [congruence|assumption|lia|].
  destruct (Nat.eqb (String.length b) 12) eqn:E12.
  - apply Nat.eqb_eq in E12. unfold oid.
    now rewrite (ObjectId_of_str b E12).
  - apply Nat.eqb_neq in E12. unfold oid, ObjectId_of, str.
    rewrite len_hexlify.
    destruct (Nat.eqb (2 * String.length b) 24) eqn:E24;
      [apply Nat.eqb_eq in E24; lia|reflexivity].
Qed.

Lemma oid_accepts_witness :
  oid "00000000000000000000 Bb " = inr (bytes_of 11 187 EmptyString) /\
  Py.len "00000000000000000000 Bb " = 24%nat /\
  String.length "00000000000000000000 Bb " = 24%nat /\
  (String.length (bytes_of 11 187 EmptyString) <= 12)%nat /\
  oid (str (bytes_of 11 187 EmptyString))
  = if Nat.eqb (String.length (bytes_of 11 187 EmptyString)) 12
    then inr (bytes_of 11 187 EmptyString)
    else inl (HTTPException 400 "Invalid id").
Proof.
  assert (E : oid "00000000000000000000 Bb " = inr (bytes_of 11 187 EmptyString))
    by reflexivity.
  exact (conj E (oid_accepts "00000000000000000000 Bb " _ E)).
Defined.
(** ** Listings *)

Lemma render_reads_back {T} (l : list (Document ObjectId T)) :
  Forall (fun d => valid_id (_id d)) l ->
  Forall2 (fun r d => oid (_id r) = inr (_id d) /\ fields r = fields d)
    (render l) l.
Proof.
  induction 1 as [|d l Hd _ IH]; cbn [render List.map]; constructor.
  - split; [|reflexivity]. cbn [_id]. unfold oid.
    now rewrite ObjectId_of_str.
  - exact IH.
Qed.

Lemma ids_ok_valid {T} n (l : list (Document ObjectId T)) :
  ids_ok n l = true -> Forall (fun d => valid_id (_id d)) l.
Proof.
  intros H. apply ids_ok_spec in H as [H _].
  eapply Forall_impl; [exact H|]. intros d Hd. cbn in Hd. exact (proj1 Hd).
Qed.

Lemma listing_reads_back {T} `{Jsonable T} (c : Collection T) n s :
  ids_ok (next_id s) (docs c s) = true ->
  exists l,
    Forall2 (fun r d => oid (_id r) = inr (_id d) /\ fields r = fields d)
      l (docs c s) /\
    route 200 (docs ← get_documents c; mret (render docs)) (live n s)
    = if json_ok (docs c s) then (live n s, JSONResponse 200 l)
      else (live n s, ErrorResponse 500 "Internal Server Error").
Proof.
  intros Hids. exists (render (docs c s)). split.
  - eauto using render_reads_back, ids_ok_valid.
  - rewrite listing_run, json_ok_render. reflexivity.
Qed.

(** X7: listings.  On a store with its invariant, each of the three
    listings leaves the store as it is.  When every number stored in the
    collection is finite it is answered 200 with one record per stored
    document, in store order, with the stored fields and an identifier that
    [oid] reads back to the stored one; when some stored number is infinite
    or nan the listing cannot be written as JSON and is answered 500. *)
Theorem listings_read_back n s :
  store_inv s = true ->
  (exists l,
     Forall2 (fun r d => oid (_id r) = inr (_id d) /\ fields r = fields d)
       l (menuitem s) /\
     GET_api_menu (live n s)
     = if json_ok (menuitem s) then (live n s, JSONResponse 200 l)
       else (live n s, ErrorResponse 500 "Internal Server Error")) /\
  (exists l,
     Forall2 (fun r d => oid (_id r) = inr (_id d) /\ fields r = fields d)
       l (order s) /\
     GET_api_orders (live n s)
     = if json_ok (order s) then (live n s, JSONResponse 200 l)
       else (live n s, ErrorResponse 500 "Internal Server Error")) /\
  (exists l,
     Forall2 (fun r d => oid (_id r) = inr (_id d) /\ fields r = fields d)
       l (inventory s) /\
     GET_api_inventory (live n s)
     = if json_ok (inventory s) then (live n s, JSONResponse 200 l)
       else (live n s, ErrorResponse 500 "Internal Server Error")).
Proof.
  intros Hinv. apply store_inv_parts in Hinv as (_ & Hm & Ho & Hi & Hn).
  repeat split.
  - exact (listing_reads_back menuitem_c n s Hm).
  - exact (listing_reads_back order_c n s Ho).
  - exact (listing_reads_back inventory_c n s Hi).
Qed.

Lemma listings_read_back_witness :
  store_inv cafe = true /\
  exists l,
    Forall2 (fun r d => oid (_id r) = inr (_id d) /\ fields r = fields d)
      l (menuitem cafe) /\
    GET_api_menu (live "cafe" cafe) = (live "cafe" cafe, JSONResponse 200 l).
Proof.
  assert (Hinv : store_inv cafe = true) by reflexivity.
  exact (conj Hinv (proj1 (listings_read_back "cafe" cafe Hinv))).
Defined.

(** X8: reading.  The liveness and diagnostics requests, the three listings
    and the login leave [db] exactly as it was, whether the store is not
    configured, down or up. *)
Theorem reads_change_nothing r db :
  reads_only r = true -> db_after r db = db.
Proof.
  destruct r as [|url| |p|p| | |i|st|l]; try discriminate; intros _;
    cbn [db_after];
    unfold GET_root, GET_test, GET_api_menu, GET_api_orders, GET_api_inventory,
      POST_api_auth_login;
    rewrite route_fst;
    unfold read_root, test_database, list_menu,
      list_orders, list_inventory, login, get_documents, find, find_one,
      mbind, M_bind, bind, on_store, mret, M_ret, ret;
    destruct db as [[nm [e|s]]|]; try reflexivity.
  now destruct (List.find _ (docs staff_c s)).
Qed.

Lemma reads_change_nothing_witness :
  reads_only (Post_api_auth_login (StaffLogin.mk "1234")) = true /\
  db_after (Post_api_auth_login (StaffLogin.mk "1234")) (live "cafe" cafe)
  = live "cafe" cafe.
Proof.
  assert (H : reads_only (Post_api_auth_login (StaffLogin.mk "1234")) = true)
    by reflexivity.
  exact (conj H (reads_change_nothing _ (live "cafe" cafe) H)).
Defined.
(** ** Menu, then listing and ordering *)

Lemma menu_listing_now n s :
  prices_finite s = true ->
  GET_api_menu (live n s) = (live n s, JSONResponse 200 (render (menuitem s))).
Proof.
  intros Hs.
  change (GET_api_menu (live n s))
    with (route 200 (docs ← get_documents menuitem_c; mret (render docs))
            (live n s)).
  rewrite listing_run, json_ok_render. cbn [docs menuitem_c].
  unfold prices_finite in Hs. unfold json_ok, Menuitem_json.
  now rewrite Hs.
Qed.

(** X9: the menu grows at the end.  On a well-formed store whose menu
    prices are finite, creating a menu item with a finite price that passes
    [ge=0] is answered 201, and the listing after it is the listing before
    it followed by the new record: the records already there keep their
    place, identifier and fields. *)
Theorem menu_listing_grows n s payload :
  wf_store s = true ->
  prices_finite s = true ->
  (0 <=? MenuCreate.price payload)%float = true ->
  Py.isfinite (MenuCreate.price payload) = true ->
  exists s' before,
    GET_api_menu (live n s) = (live n s, JSONResponse 200 before) /\
    POST_api_menu payload (live n s)
    = (live n s', JSONResponse 201 (Created.mk (str (fresh_id s)))) /\
    GET_api_menu (live n s')
    = (live n s',
       JSONResponse 200
         (before ++
          [Doc (str (fresh_id s))
             (Menuitem.mk (MenuCreate.title payload)
                (MenuCreate.description payload) (MenuCreate.price payload)
                (MenuCreate.category payload) (MenuCreate.available payload))])).
Proof.
  intros Hwf Hs Hprice Hfin.
  set (item := Menuitem.mk _ _ _ _ _).
  exists (inserted menuitem_c item s), (render (menuitem s)).
  split; [now apply menu_listing_now|]. split.
  - rewrite create_menu_item_run, Hprice, wf_store_room by exact Hwf.
    reflexivity.
  - now apply menu_listing_after.
Qed.

Lemma menu_listing_grows_witness :
  wf_store cafe = true /\
  prices_finite cafe = true /\
  (0 <=? MenuCreate.price cake)%float = true /\
  Py.isfinite (MenuCreate.price cake) = true /\
  exists s' before,
    GET_api_menu (live "cafe" cafe) = (live "cafe" cafe, JSONResponse 200 before) /\
    POST_api_menu cake (live "cafe" cafe)
    = (live "cafe" s', JSONResponse 201 (Created.mk "00000000000000000000000b")) /\
    GET_api_menu (live "cafe" s')
    = (live "cafe" s',
       JSONResponse 200
         (before ++
          [Doc "00000000000000000000000b"
             (Menuitem.mk "Cake" (Some "carrot") 3.75 None true)])).
Proof.
  assert (Hwf : wf_store cafe = true) by reflexivity.
  assert (Hs : prices_finite cafe = true) by reflexivity.
  assert (Hp : (0 <=? MenuCreate.price cake)%float = true) by reflexivity.
  assert (Hf : Py.isfinite (MenuCreate.price cake) = true) by reflexivity.
  refine (conj Hwf (conj Hs (conj Hp (conj Hf _)))).
  exact (menu_listing_grows "cafe" cafe cake Hwf Hs Hp Hf).
Defined.

Lemma render_In {T} (l : list (Document ObjectId T)) r :
  In r (render l) -> exists d, In d l /\ _id r = str (_id d) /\ fields r = fields d.
Proof.
  unfold render. intros H. apply in_map_iff in H as [d [<- Hd]].
  now exists d.
Qed.

(** X10: ordering from the listing.  On a well-formed store, an identifier
    taken from the menu listing is never refused as invalid or not found: a
    request for that one item, with a quantity that converts to a float, is
    priced at the listed price and, when the amounts pass the [ge=0] checks
    of [Order], the order is stored; the answer is 201 with the amounts
    when they are finite and 500 when one of them is infinite. *)
Theorem order_from_listing n s listing r q qf :
  wf_store s = true ->
  GET_api_menu (live n s) = (live n s, JSONResponse 200 listing) ->
  In r listing ->
  Py.float_of_int q = Some qf ->
  let S := (0 + Menuitem.price (fields r) * qf)%float in
  let tax := Py.round (S * 0.07)%float 2 in
  let total := Py.round (S + tax)%float 2 in
  Order_ok (Py.round S 2) tax total = true ->
  POST_api_orders (OrderCreate.mk None [OrderItem.mk (_id r) q] None) (live n s)
  = (live n
       (inserted order_c
          (Order.mk None
             [ItemLine.mk (_id r) q (Menuitem.price (fields r))
                (Menuitem.title (fields r))]
             (Py.round S 2) tax total "open" None) s),
     if amounts_finite (Py.round S 2) tax total
     then JSONResponse 201
            (OrderCreated.mk (str (fresh_id s)) (Py.round S 2) tax total)
     else ErrorResponse 500 "Internal Server Error").
Proof.
  intros Hwf Hlist Hin Hq S tax total Hok.
  change (GET_api_menu (live n s))
    with (route 200 (docs ← get_documents menuitem_c; mret (render docs))
            (live n s)) in Hlist.
  rewrite listing_run in Hlist.
  destruct (json_ok (render (docs menuitem_c s))); [|discriminate].
  injection Hlist as <-.
  apply render_In in Hin as [d (Hd & Eid & Ef)].
  rewrite (POST_api_orders_priced n s _ [d] [qf]).
  - cbn [accumulate List.map combine fold_left fst snd OrderCreate.items
         OrderCreate.staff_id OrderCreate.note lines_of
         OrderItem.menu_item_id OrderItem.quantity].
    cbn zeta. rewrite <- Ef. fold S. fold tax. fold total.
    rewrite Hok. now destruct (amounts_finite (Py.round S 2) tax total).
  - exact Hwf.
  - constructor; [|constructor]. now split.
  - constructor; [|constructor]. exact Hq.
Qed.

Lemma order_from_listing_witness :
  wf_store cafe = true /\
  GET_api_menu (live "cafe" cafe)
  = (live "cafe" cafe, JSONResponse 200 (render (menuitem cafe))) /\
  In (Doc "00000000000000000000000a"
        (Menuitem.mk "Pie" None 4.2 (Some "Snacks") true))
     (render (menuitem cafe)) /\
  Py.float_of_int 2 = Some 2%float /\
  POST_api_orders
    (OrderCreate.mk None [OrderItem.mk "00000000000000000000000a" 2] None)
    (live "cafe" cafe)
  = (live "cafe"
       (inserted order_c
          (Order.mk None [ItemLine.mk "00000000000000000000000a" 2 4.2 "Pie"]
             8.4 0.59 8.99 "open" None) cafe),
     JSONResponse 201
       (OrderCreated.mk "00000000000000000000000b" 8.4 0.59 8.99)).
Proof.
  assert (Hwf : wf_store cafe = true) by reflexivity.
  assert (Hl : GET_api_menu (live "cafe" cafe)
               = (live "cafe" cafe, JSONResponse 200 (render (menuitem cafe))))
    by reflexivity.
  assert (Hin : In (Doc "00000000000000000000000a"
                      (Menuitem.mk "Pie" None 4.2 (Some "Snacks") true))
                   (render (menuitem cafe))) by (simpl; tauto).
  assert (Hq : Py.float_of_int 2 = Some 2%float) by reflexivity.
  refine (conj Hwf (conj Hl (conj Hin (conj Hq _)))).
  exact (order_from_listing "cafe" cafe _ _ 2 2%float Hwf Hl Hin Hq eq_refl).
Defined.
(** ** Orders: listing, quantities too large, identifiers in capitals *)

Lemma lines_of_finite s items ds :
  prices_finite s = true ->
  Forall2 (refers s) items ds ->
  forallb json_ok (lines_of items ds) = true.
Proof.
  intros Hs Href. unfold lines_of.
  induction Href as [|it d items ds [Hd _] _ IH]; [reflexivity|].
  cbn [combine List.map forallb fst snd]. rewrite IH, andb_true_r.
  unfold prices_finite in Hs.
  exact (proj1 (forallb_forall _ _) Hs d Hd).
Qed.

Lemma order_listing_now n s :
  json_ok (order s) = true ->
  GET_api_orders (live n s) = (live n s, JSONResponse 200 (render (order s))).
Proof.
  intros Hs.
  change (GET_api_orders (live n s))
    with (route 200 (docs ← get_documents order_c; mret (render docs))
            (live n s)).
  rewrite listing_run, json_ok_render. cbn [docs order_c].
  change (forallb (fun d => json_ok (fields d)) (order s))
    with (json_ok (order s)).
  now rewrite Hs.
Qed.

(** X11: an order is listed as stored.  On a well-formed store whose menu
    prices and order amounts are finite, under the conditions under which an
    order is accepted and with finite amounts, the request is answered 201
    and the listing of orders after it is the listing before it followed by
    one record: the returned identifier, the requested lines with price and
    title as the menu had them, the three amounts, the status "open", and
    staff_id and note as sent. *)
Theorem order_listing_grows n s payload ds qs :
  wf_store s = true ->
  prices_finite s = true ->
  json_ok (order s) = true ->
  Forall2 (refers s) (OrderCreate.items payload) ds ->
  Forall2 converts (OrderCreate.items payload) qs ->
  let S := accumulate 0 (List.map (fun d => Menuitem.price (fields d)) ds) qs in
  let subtotal := Py.round S 2 in
  let tax := Py.round (S * 0.07)%float 2 in
  let total := Py.round (S + tax)%float 2 in
  Order_ok subtotal tax total = true ->
  amounts_finite subtotal tax total = true ->
  exists s' before,
    GET_api_orders (live n s) = (live n s, JSONResponse 200 before) /\
    POST_api_orders payload (live n s)
    = (live n s',
       JSONResponse 201
         (OrderCreated.mk (str (fresh_id s)) subtotal tax total)) /\
    GET_api_orders (live n s')
    = (live n s',
       JSONResponse 200
         (before ++
          [Doc (str (fresh_id s))
             (Order.mk (OrderCreate.staff_id payload)
                (lines_of (OrderCreate.items payload) ds)
                subtotal tax total "open" (OrderCreate.note payload))])).
Proof.
  intros Hwf Hprices Horders Href Hq S subtotal tax total Hok Hfin.
  set (o := Order.mk _ _ _ _ _ _ _).
  exists (inserted order_c o s), (render (order s)).
  split; [now apply order_listing_now|]. split.
  - rewrite (POST_api_orders_priced n s payload ds qs Hwf Href Hq).
    cbn zeta. fold S. fold tax. fold total. fold subtotal.
    now rewrite Hok, Hfin.
  - rewrite order_listing_now.
    + cbn [order inserted with_next_id with_docs order_c docs].
      now rewrite render_snoc.
    + cbn [order inserted with_next_id with_docs order_c docs].
      unfold json_ok, list_json. rewrite forallb_app.
      change (forallb json_ok (order s)) with (json_ok (order s)).
      rewrite Horders. cbn [forallb andb].
      unfold json_ok at 1, Document_json. cbn [fields].
      unfold json_ok at 1, Order_json. subst o.
      cbn [Order.items Order.subtotal Order.tax Order.total].
      rewrite (lines_of_finite s _ _ Hprices Href).
      unfold amounts_finite in Hfin.
      apply andb_true_iff in Hfin as [Hfin ->].
      apply andb_true_iff in Hfin as [-> ->]. reflexivity.
Qed.

Lemma order_listing_grows_witness :
  wf_store cafe = true /\
  prices_finite cafe = true /\
  json_ok (order cafe) = true /\
  Forall2 (refers cafe) (OrderCreate.items soup_x3_less_1) [soup; soup] /\
  Forall2 converts (OrderCreate.items soup_x3_less_1) [3%float; (-1)%float] /\
  exists s' before,
    GET_api_orders (live "cafe" cafe) = (live "cafe" cafe, JSONResponse 200 before)
    /\ POST_api_orders soup_x3_less_1 (live "cafe" cafe)
       = (live "cafe" s',
          JSONResponse 201
            (OrderCreated.mk "00000000000000000000000b" 20 1.4 21.4))
    /\ GET_api_orders (live "cafe" s')
       = (live "cafe" s',
          JSONResponse 200
            (before ++
             [Doc "00000000000000000000000b"
                (Order.mk None
                   [ItemLine.mk "000000000000000000000007" 3 10 "Soup";
                    ItemLine.mk "000000000000000000000007" (-1) 10 "Soup"]
                   20 1.4 21.4 "open" (Some "one returned"))])).
Proof.
  assert (Hwf : wf_store cafe = true) by reflexivity.
  assert (Hp : prices_finite cafe = true) by reflexivity.
  assert (Ho : json_ok (order cafe) = true) by reflexivity.
  assert (Href : Forall2 (refers cafe) (OrderCreate.items soup_x3_less_1)
                   [soup; soup]) by sample.
  assert (Hq : Forall2 converts (OrderCreate.items soup_x3_less_1)
                 [3%float; (-1)%float]) by sample.
  refine (conj Hwf (conj Hp (conj Ho (conj Href (conj Hq _))))).
  exact (order_listing_grows "cafe" cafe soup_x3_less_1 [soup; soup]
           [3%float; (-1)%float] Hwf Hp Ho Href Hq eq_refl eq_refl).
Defined.

Lemma price_items_overflow mm items : forall ds subtotal item_lines,
  Forall2 (fun it d => mm !! OrderItem.menu_item_id it = Some d) items ds ->
  Exists (fun it => Py.float_of_int (OrderItem.quantity it) = None) items ->
  price_items mm items subtotal item_lines = inl OverflowError.
Proof.
  induction items as [|it rest IH]; intros ds subtotal item_lines Hd Hex.
  - inversion Hex.
  - inversion Hd as [|? d ? ds' Hm Hd']; subst.
    cbn [price_items]. rewrite Hm.
    destruct (Py.float_of_int (OrderItem.quantity it)) eqn:Ec; [|reflexivity].
    apply (IH ds'); [assumption|].
    inversion Hex as [? ? Hnone|]; subst; [congruence|assumption].
Qed.

(** X12: a quantity too large for a float.  When every requested item refers
    to a stored menu item and some quantity does not convert to a float
    (2^1024 and beyond), the multiplication raises, the request is answered
    500 and the store is left as it was. *)
Theorem order_quantity_overflow n s payload ds :
  store_inv s = true ->
  Forall2 (refers s) (OrderCreate.items payload) ds ->
  Exists (fun it => Py.float_of_int (OrderItem.quantity it) = None)
    (OrderCreate.items payload) ->
  POST_api_orders payload (live n s)
  = (live n s, ErrorResponse 500 "Internal Server Error").
Proof.
  intros Hinv Href Hex. unfold POST_api_orders, route.
  rewrite (create_order_run n s payload (List.map _id ds))
    by eauto using oids_refs.
  rewrite (price_items_overflow _ _ ds); [reflexivity| |assumption].
  apply refs_lookup; [assumption| |assumption].
  intros d Hd. now apply in_map.
Qed.

Lemma order_quantity_overflow_witness :
  store_inv cafe = true /\
  Forall2 (refers cafe) (OrderCreate.items too_many_soups) [tea; soup] /\
  Py.float_of_int (2 ^ 1024) = None /\
  POST_api_orders too_many_soups (live "cafe" cafe)
  = (live "cafe" cafe, ErrorResponse 500 "Internal Server Error").
Proof.
  assert (Hinv : store_inv cafe = true) by reflexivity.
  assert (Href : Forall2 (refers cafe) (OrderCreate.items too_many_soups)
                   [tea; soup]) by sample.
  assert (Hov : Py.float_of_int (2 ^ 1024) = None) by reflexivity.
  refine (conj Hinv (conj Href (conj Hov _))).
  apply (order_quantity_overflow "cafe" cafe too_many_soups [tea; soup]
           Hinv Href).
  apply Exists_cons_tl. apply Exists_cons_hd. exact Hov.
Defined.

Lemma not_str_unlisted s it o :
  store_inv s = true ->
  ObjectId_of (OrderItem.menu_item_id it) = Some o ->
  OrderItem.menu_item_id it <> str o ->
  listed s it = false.
Proof.
  intros Hinv Ho Hne. destruct (listed s it) eqn:E; [|reflexivity].
  apply listed_In in E as [d [Hd E]]. exfalso. apply Hne.
  rewrite E in *. rewrite ObjectId_of_str in Ho
    by eauto using store_inv_menuitem.
  congruence.
Qed.

(** X13: an identifier not in the spelling of [str].  [create_order] parses
    each identifier with [oid] but looks the request's own string up in a
    table keyed by [str]: when all identifiers of a request parse and all
    quantities convert, an identifier written otherwise than [str] writes
    it (letters in capitals), whether or not the item it denotes is stored,
    makes the request end in 400 "Menu item not found", naming the first
    requested string that is not the [str] of a stored identifier; the store
    is left as it was. *)
Theorem order_id_not_as_str n s payload it o :
  store_inv s = true ->
  In it (OrderCreate.items payload) ->
  ObjectId_of (OrderItem.menu_item_id it) = Some o ->
  OrderItem.menu_item_id it <> str o ->
  Forall (fun it => ObjectId_of (OrderItem.menu_item_id it) <> None)
    (OrderCreate.items payload) ->
  Forall (fun it => Py.float_of_int (OrderItem.quantity it) <> None)
    (OrderCreate.items payload) ->
  exists it',
    List.find (fun it => negb (listed s it)) (OrderCreate.items payload)
    = Some it' /\
    POST_api_orders payload (live n s)
    = (live n s,
       ErrorResponse 400
         ("Menu item not found: " +:+ OrderItem.menu_item_id it')).
Proof.
  intros Hinv Hin Ho Hne Hwell Hq.
  destruct (oids_valid _ Hwell) as [ids [Hids Hparsed]].
  pose proof (not_str_unlisted s it o Hinv Ho Hne) as Hunl.
  destruct (find_exists (fun it => negb (listed s it)) _ it Hin)
    as [it' Hfind]; [now rewrite Hunl|].
  exists it'. split; [exact Hfind|].
  unfold POST_api_orders, route.
  rewrite (create_order_run n s payload ids Hids).
  rewrite (price_items_missing _ _ _ _ it'); [reflexivity| |assumption].
  rewrite <- Hfind. apply find_ext_in. intros x Hx.
  destruct (listed s x) eqn:El.
  - apply listed_In in El as [d [Hd E]].
    rewrite E, (menu_map_lookup s ids d); try assumption.
    + now rewrite bool_decide_eq_false_2.
    + eapply oids_parsed_In; eauto.
      rewrite E. apply ObjectId_of_str. eauto using store_inv_menuitem.
  - rewrite menu_map_unlisted by assumption.
    now rewrite bool_decide_eq_true_2.
Qed.

(** The pie is stored under "..0a" and asked for as "..0A". *)
Lemma order_id_not_as_str_witness :
  store_inv cafe = true /\
  In pie (menuitem cafe) /\
  ObjectId_of "00000000000000000000000A" = Some (_id pie) /\
  "00000000000000000000000A" <> str (_id pie) /\
  exists it',
    List.find (fun it => negb (listed cafe it)) (OrderCreate.items pie_in_capitals)
    = Some it' /\
    POST_api_orders pie_in_capitals (live "cafe" cafe)
    = (live "cafe" cafe,
       ErrorResponse 400
         ("Menu item not found: " +:+ OrderItem.menu_item_id it')).
Proof.
  assert (Hinv : store_inv cafe = true) by reflexivity.
  assert (Hpie : In pie (menuitem cafe)) by (simpl; tauto).
  assert (Ho : ObjectId_of "00000000000000000000000A" = Some (_id pie))
    by reflexivity.
  assert (Hne : "00000000000000000000000A" <> str (_id pie)) by discriminate.
  refine (conj Hinv (conj Hpie (conj Ho (conj Hne _)))).
  apply (order_id_not_as_str "cafe" cafe pie_in_capitals
           (OrderItem.mk "00000000000000000000000A" 1) (_id pie) Hinv);
    [simpl; tauto|exact Ho|exact Hne|sample|sample].
Defined.

(** ** Inventory: upsert twice, upsert then list *)

Lemma update_first_same {T} (set : T -> T) (l : list (Document ObjectId T)) e :
  List.NoDup (List.map _id l) -> In e l -> set (fields e) = fields e ->
  update_first (fun d => String.eqb (_id d) (_id e)) set l = l.
Proof.
  intros Hnd Hin Hset. rewrite update_first_by_id by assumption.
  rewrite <- (List.map_id l) at 2. apply List.map_ext_in.
  intros d Hd. unfold ObjectId in *.
  destruct (String.eqb (_id d) (_id e)) eqn:E; [|reflexivity].
  apply String.eqb_eq in E.
  assert (d = e) by (eapply NoDup_map_eq; eauto). subst d.
  rewrite Hset. now destruct e.
Qed.

Lemma with_docs_inventory_same s :
  with_docs inventory_c (inventory s) s = s.
Proof. now destruct s. Qed.

(** An upsert that finds the record already holding what it sends changes
    nothing and answers with the identifier of the record. *)
Lemma upsert_inventory_settled n s item e :
  store_inv s = true ->
  List.find (has_sku (InventoryUpsert.sku item)) (inventory s) = Some e ->
  fields e
  = Inventory.mk (InventoryUpsert.sku item) (InventoryUpsert.quantity item)
      (InventoryUpsert.unit item) (InventoryUpsert.reorder_level item) ->
  POST_api_inventory item (live n s)
  = (live n s, JSONResponse 201 (Created.mk (str (_id e)))).
Proof.
  intros Hinv Hfind Hf. rewrite upsert_inventory_run, Hfind.
  rewrite update_first_same.
  - now rewrite with_docs_inventory_same.
  - now apply store_inv_inventory.
  - now apply find_some in Hfind.
  - rewrite Hf. reflexivity.
Qed.

Lemma find_map_keep {A} (p : A -> bool) (g : A -> A) (l : list A) :
  (forall x, p (g x) = p x) ->
  List.find p (List.map g l) = option_map g (List.find p l).
Proof.
  intros H. induction l as [|a l IH]; [reflexivity|].
  cbn [List.map List.find]. rewrite H. now destruct (p a).
Qed.

Lemma find_snoc_none {A} (p : A -> bool) (l : list A) x :
  List.find p l = None -> p x = true -> List.find p (l ++ [x]) = Some x.
Proof.
  intros Hn Hx. induction l as [|a l IH]; cbn [app List.find] in *.
  - now rewrite Hx.
  - destruct (p a); [discriminate|]. now apply IH.
Qed.

(** X14: upserting twice.  On a store with its invariant, sending the same
    upsert a second time right after the first changes nothing and gets the
    answer of the first: the same status and the same identifier. *)
Theorem upsert_inventory_idempotent n s item :
  store_inv s = true ->
  POST_api_inventory item (fst (POST_api_inventory item (live n s)))
  = POST_api_inventory item (live n s).
Proof.
  intros Hinv.
  set (k := InventoryUpsert.sku item).
  set (data := Inventory.mk k (InventoryUpsert.quantity item)
                 (InventoryUpsert.unit item) (InventoryUpsert.reorder_level item)).
  rewrite (upsert_inventory_run n s item). fold k.
  destruct (List.find (has_sku k) (inventory s)) as [e|] eqn:Efind.
  - cbn [fst].
    pose proof (store_inv_inventory s Hinv) as Hnd.
    pose proof (find_some _ _ Efind) as [Hin Hsku].
    unfold has_sku in Hsku. apply String.eqb_eq in Hsku.
    set (s' := with_docs inventory_c _ s).
    apply (upsert_inventory_settled n s' item (Doc (_id e) data)).
    + now apply store_inv_updated.
    + unfold s'. cbn [inventory with_docs inventory_c]. fold k.
      rewrite update_first_by_id by assumption.
      rewrite find_map_keep, Efind.
      * cbn [option_map]. unfold ObjectId in *. rewrite String.eqb_refl.
        unfold data. now rewrite Hsku.
      * intros d. unfold has_sku, ObjectId in *.
        now destruct (String.eqb (_id d) (_id e)).
    + reflexivity.
  - destruct (next_id s <? 2 ^ 96)%N eqn:Eroom; cbn [fst].
    + apply (upsert_inventory_settled n (inserted inventory_c data s) item
               (Doc (fresh_id s) data)).
      * apply store_inv_inserted_inventory. unfold wf_store.
        now rewrite Hinv, Eroom.
      * cbn [inventory inserted with_next_id with_docs inventory_c docs].
        fold k. apply find_snoc_none; [assumption|].
        unfold has_sku, data. cbn. apply String.eqb_refl.
      * reflexivity.
    + rewrite (upsert_inventory_run n s item). fold k.
      now rewrite Efind, Eroom.
Qed.

Lemma upsert_inventory_idempotent_witness :
  store_inv cafe = true /\
  POST_api_inventory milk_9 (fst (POST_api_inventory milk_9 (live "cafe" cafe)))
  = POST_api_inventory milk_9 (live "cafe" cafe).
Proof.
  assert (Hinv : store_inv cafe = true) by reflexivity.
  exact (conj Hinv (upsert_inventory_idempotent "cafe" cafe milk_9 Hinv)).
Defined.

Lemma inventory_listing_now n s :
  json_ok (inventory s) = true ->
  GET_api_inventory (live n s)
  = (live n s, JSONResponse 200 (render (inventory s))).
Proof.
  intros Hs.
  change (GET_api_inventory (live n s))
    with (route 200 (docs ← get_documents inventory_c; mret (render docs))
            (live n s)).
  rewrite listing_run, json_ok_render. cbn [docs inventory_c].
  change (forallb (fun d => json_ok (fields d)) (inventory s))
    with (json_ok (inventory s)).
  now rewrite Hs.
Qed.


(** ** Staff: creation, then login *)

Lemma create_staff_run n s st :
  POST_api_staff st (live n s) =
    if (4 <=? Py.len (StaffCreate.pin st))%nat
       && (Py.len (StaffCreate.pin st) <=? 8)%nat
    then if (next_id s <? 2 ^ 96)%N
         then (live n
                 (inserted staff_c
                    (Staff.mk (StaffCreate.name st) (StaffCreate.role st)
                       (StaffCreate.pin st) true) s),
               JSONResponse 201 (Created.mk (str (fresh_id s))))
         else (live n s, ErrorResponse 500 "Internal Server Error")
    else (live n s, ErrorResponse 500 "Internal Server Error").
Proof.
  unfold POST_api_staff, route, create_staff, mbind, M_bind, bind, lift,
    create_document, on_store, live, mret, M_ret, ret, Staff.new.
  destruct (_ && _); [|reflexivity].
  now destruct (next_id s <? 2 ^ 96)%N.
Qed.

Lemma find_app_some {A} (p : A -> bool) (l k : list A) x :
  List.find p l = Some x -> List.find p (l ++ k) = Some x.
Proof.
  induction l as [|a l IH]; [discriminate|].
  cbn [app List.find]. now destruct (p a).
Qed.

(** X16: a new member of staff can log in.  On a well-formed store where no
    active record has the pin, creating a member of staff with a pin of 4 to
    8 characters is answered 201, and a login with that pin is then answered
    200 with the returned identifier and the name and role sent. *)
Theorem create_staff_then_login n s st :
  wf_store s = true ->
  (4 <= Py.len (StaffCreate.pin st) <= 8)%nat ->
  List.find (pin_matches (StaffCreate.pin st)) (staff s) = None ->
  exists s',
    POST_api_staff st (live n s)
    = (live n s', JSONResponse 201 (Created.mk (str (fresh_id s)))) /\
    POST_api_auth_login (StaffLogin.mk (StaffCreate.pin st)) (live n s')
    = (live n s',
       JSONResponse 200
         (LoggedIn.mk (str (fresh_id s)) (StaffCreate.name st)
            (StaffCreate.role st))).
Proof.
  intros Hwf [H4 H8] Hnone. eexists. split.
  - rewrite create_staff_run, wf_store_room by exact Hwf.
    apply Nat.leb_le in H4, H8. now rewrite H4, H8.
  - rewrite login_run. cbn [StaffLogin.pin staff inserted with_next_id
      with_docs staff_c docs].
    rewrite (find_snoc_none _ _ _ Hnone); [reflexivity|].
    unfold pin_matches. cbn. now rewrite String.eqb_refl.
Qed.

Lemma create_staff_then_login_witness :
  wf_store cafe = true /\
  (4 <= Py.len (StaffCreate.pin dee) <= 8)%nat /\
  List.find (pin_matches (StaffCreate.pin dee)) (staff cafe) = None /\
  exists s',
    POST_api_staff dee (live "cafe" cafe)
    = (live "cafe" s', JSONResponse 201 (Created.mk "00000000000000000000000b")) /\
    POST_api_auth_login (StaffLogin.mk "4321") (live "cafe" s')
    = (live "cafe" s',
       JSONResponse 200 (LoggedIn.mk "00000000000000000000000b" "Dee" "chef")).
Proof.
  assert (Hwf : wf_store cafe = true) by reflexivity.
  assert (Hlen : (4 <= Py.len (StaffCreate.pin dee) <= 8)%nat)
    by (simpl; lia).
  assert (Hnone : List.find (pin_matches (StaffCreate.pin dee)) (staff cafe) = None)
    by reflexivity.
  exact (conj Hwf (conj Hlen (conj Hnone
           (create_staff_then_login "cafe" cafe dee Hwf Hlen Hnone)))).
Defined.

(** X17: a login stays what it is.  Once a login with a pin is answered 200,
    it is answered 200 with the same identifier, name and role after any
    further request: a member of staff created later with the same pin is
    never the one logged in. *)
Theorem login_is_stable n s req who r :
  snd (POST_api_auth_login req (live n s)) = JSONResponse 200 who ->
  snd (POST_api_auth_login req (db_after r (live n s))) = JSONResponse 200 who.
Proof.
  intros Hlogin.
  destruct (db_after_step r n s) as [s' [-> Hstep]].
  rewrite login_run in *.
  destruct (List.find _ (staff s)) as [d|] eqn:Efind; [|discriminate].
  cbn [snd] in Hlogin.
  assert (E : List.find (pin_matches (StaffLogin.pin req)) (staff s') = Some d).
  { destruct Hstep;
      cbn [staff inserted with_next_id with_docs docs staff_c menuitem_c
           order_c inventory_c];
      try assumption.
    now apply find_app_some. }
  now rewrite E.
Qed.

(** Ana logs in with 1234; a second record with that pin changes nothing. *)
Lemma login_is_stable_witness :
  snd (POST_api_auth_login (StaffLogin.mk "1234") (live "cafe" cafe))
  = JSONResponse 200 (LoggedIn.mk "000000000000000000000001" "Ana" "manager") /\
  snd (POST_api_auth_login (StaffLogin.mk "1234")
         (db_after (Post_api_staff (StaffCreate.mk "Eve" "cashier" "1234"))
            (live "cafe" cafe)))
  = JSONResponse 200 (LoggedIn.mk "000000000000000000000001" "Ana" "manager").
Proof.
  assert (H : snd (POST_api_auth_login (StaffLogin.mk "1234") (live "cafe" cafe))
              = JSONResponse 200
                  (LoggedIn.mk "000000000000000000000001" "Ana" "manager"))
    by reflexivity.
  exact (conj H (login_is_stable "cafe" cafe _ _
                   (Post_api_staff (StaffCreate.mk "Eve" "cashier" "1234")) H)).
Defined.

(** X18: pins out of range never log in.  In a store built by requests from
    the empty one, a login with a pin shorter than 4 or longer than 8
    characters is answered 401. *)
Theorem login_pin_out_of_range n s req :
  reachable n s ->
  (Py.len (StaffLogin.pin req) < 4 \/
   8 < Py.len (StaffLogin.pin req))%nat ->
  POST_api_auth_login req (live n s)
  = (live n s, ErrorResponse 401 "Invalid PIN").
Proof.
  intros Hr Hlen.
  assert (Hpins : Forall (fun d =>
            (4 <= Py.len (Staff.pin (fields d)) <= 8)%nat) (staff s)).
  { revert n s Hr. apply (reachable_ind (fun s => Forall (fun d =>
      (4 <= Py.len (Staff.pin (fields d)) <= 8)%nat) (staff s)));
      [constructor|].
    intros s0 s' Hstep H0.
    destruct Hstep as [|name role pin Hpin _| | | |];
      cbn [staff inserted with_next_id with_docs docs staff_c menuitem_c
           order_c inventory_c]; try assumption.
    apply Forall_app. split; [assumption|].
    constructor; [|constructor]. cbn [fields Staff.pin].
    apply andb_true_iff in Hpin as [H4 H8]. apply Nat.leb_le in H4, H8. auto. }
  rewrite login_run.
  destruct (List.find _ (staff s)) as [d|] eqn:Efind; [|reflexivity].
  apply find_some in Efind as [Hin Hm].
  apply pin_matches_spec in Hm as [Hp _].
  rewrite Forall_forall in Hpins. apply list_elem_of_In in Hin.
  specialize (Hpins d Hin). cbn in Hpins. rewrite Hp in Hpins. lia.
Qed.

Lemma login_pin_out_of_range_witness :
  reachable "cafe" opened /\
  (Py.len "007" < 4)%nat /\
  POST_api_auth_login (StaffLogin.mk "007") (live "cafe" opened)
  = (live "cafe" opened, ErrorResponse 401 "Invalid PIN").
Proof.
  assert (Hr : reachable "cafe" opened) by (exists opening; reflexivity).
  assert (Hlen : (Py.len "007" < 4)%nat) by (simpl; lia).
  exact (conj Hr (conj Hlen
           (login_pin_out_of_range "cafe" opened (StaffLogin.mk "007") Hr
              (or_introl Hlen)))).
Defined.


(** ** Errors persist nothing, with one exception *)

Lemma down_or_absent_stays (r : Request) (db : Db) :
  (forall n s, db <> live n s) -> db_after r db = db.
Proof.
  intros Hdb.
  destruct db as [[nm [e|s]]|]; [|exfalso; now apply (Hdb nm s)|];
    destruct r as [|url| |p|p| | |i|st|l]; cbn [db_after];
    unfold GET_root, GET_test, GET_api_menu, GET_api_orders,
      GET_api_inventory, POST_api_auth_login, POST_api_menu, POST_api_orders,
      POST_api_inventory, POST_api_staff;
    rewrite route_fst;
    unfold read_root, test_database,
      list_menu, list_orders, list_inventory, login, create_menu_item,
      create_order, upsert_inventory, create_staff, get_documents, find,
      find_one, create_document, lift, mbind, M_bind, bind, on_store, mret,
      M_ret, ret; try reflexivity.
  - now destruct (Menuitem.new _ _ _ _ _) as [[]|].
  - now destruct (oids _) as [[]|].
  - now destruct (Staff.new _ _ _) as [[]|].
  - now destruct (Menuitem.new _ _ _ _ _) as [[]|].
  - now destruct (oids _) as [[]|].
  - now destruct (Staff.new _ _ _) as [[]|].
Qed.

(** X19: errors persist nothing, with one exception.  Whatever the request
    and whatever the condition of the store, a request answered with a
    status of 400 or above leaves [db] exactly as it was, unless it is an
    order that passed the checks of [Order] with an amount that is not
    finite: that order has been stored when writing the answer fails, and
    the request is answered 500. *)
Theorem errors_persist_nothing r db :
  400 <= status_after r db ->
  db_after r db = db \/
  exists p n s o,
    r = Post_api_orders p /\ db = live n s /\
    db_after r db = live n (inserted order_c o s) /\
    amounts_finite (Order.subtotal o) (Order.tax o) (Order.total o) = false /\
    status_after r db = 500.
Proof.
  destruct db as [[nm [e|s]]|];
    [intros _; left; apply down_or_absent_stays; discriminate
    | |intros _; left; apply down_or_absent_stays; discriminate].
  change (Some {| name := nm; server := Up s |}) with (live nm s).
  destruct r as [|url| |p|p| | |i|st|l]; cbn [db_after status_after].
  - intros _. now left.
  - intros _. now left.
  - intros _. left. apply route_fst.
  - intros H. left. revert H. rewrite create_menu_item_run.
    destruct (0 <=? MenuCreate.price p)%float; [|reflexivity].
    destruct (next_id s <? 2 ^ 96)%N; [cbn; lia|reflexivity].
  - unfold POST_api_orders, route.
    destruct (oids (OrderCreate.items p)) as [e|ids] eqn:Eids.
    + intros _. left. unfold create_order, mbind, M_bind, bind, lift.
      rewrite Eids. now destruct e.
    + rewrite (create_order_run nm s p ids Eids).
      destruct (price_items _ _ _ _) as [e|[subtotal item_lines]];
        [intros _; left; now destruct e|].
      cbn zeta.
      destruct (Order.new _ _ _ _ _ _ _) as [e|order_doc];
        [intros _; left; now destruct e|].
      destruct (next_id s <? 2 ^ 96)%N; [|intros _; now left].
      destruct (json_ok _) eqn:Ejson; [cbn; lia|].
      intros _. right. exists p, nm, s, order_doc.
      repeat split. exact Ejson.
  - intros _. left. apply route_fst.
  - intros _. left. apply route_fst.
  - intros H. left. revert H. rewrite upsert_inventory_run.
    destruct (List.find _ (inventory s)); [cbn; lia|].
    destruct (next_id s <? 2 ^ 96)%N; [cbn; lia|reflexivity].
  - intros H. left. revert H. rewrite create_staff_run.
    destruct (_ && _); [|reflexivity].
    destruct (next_id s <? 2 ^ 96)%N; [cbn; lia|reflexivity].
  - intros _. left. rewrite login_run. now destruct (List.find _ (staff s)).
Qed.

(** A billion bars of gold at 1e300 each: stored, then answered 500. *)
Lemma errors_persist_nothing_witness :
  400 <= status_after (Post_api_orders gold_by_the_billion) (live "kiosk" kiosk) /\
  (db_after (Post_api_orders gold_by_the_billion) (live "kiosk" kiosk)
   = live "kiosk" kiosk \/
   exists p n s o,
     Post_api_orders gold_by_the_billion = Post_api_orders p /\
     live "kiosk" kiosk = live n s /\
     db_after (Post_api_orders gold_by_the_billion) (live "kiosk" kiosk)
     = live n (inserted order_c o s) /\
     amounts_finite (Order.subtotal o) (Order.tax o) (Order.total o) = false /\
     status_after (Post_api_orders gold_by_the_billion) (live "kiosk" kiosk)
     = 500).
Proof.
  assert (H : 400 <= status_after (Post_api_orders gold_by_the_billion)
                       (live "kiosk" kiosk)) by (vm_compute; discriminate).
  exact (conj H (errors_persist_nothing _ (live "kiosk" kiosk) H)).
Defined.
